(** * LegalEagle: the retrieval question-answering core, embedded in Rocq

    A shallow embedding of [src/rag/*.py], of the document, chat and
    settings handlers of [src/backend/server.py] and of the token and
    password checks of [src/backend/auth.py].  Python statements that call
    into third-party packages (LangChain loaders, the text splitter,
    Chroma, the embedding and chat clients, [os.path]) are calls to the
    fields of one record, [Externals]; everything the repository itself
    decides (ordering, guards, exception handlers, fallbacks) is written
    out.  Effects are explicit: a computation takes a [World] (persisted
    vector collections, database rows, and the log of external calls made
    so far) and returns a result, or a raised exception, with the new
    world. *)

From Stdlib Require Import Ascii String ZArith Bool.
From stdpp Require Import base option list strings pretty gmap.

Local Open Scope Z_scope.
Local Open Scope list_scope.
Local Open Scope stdpp_scope.

(** ** Python strings (ASCII fragment) *)

Module Py.

Definition quote : string := String (ascii_of_nat 34) EmptyString.
Definition nl : string := String (ascii_of_nat 10) EmptyString.

(** [str.isspace] on one character: TAB..CR, FS..US and the space. *)
Definition isspace (c : ascii) : bool :=
  let n := nat_of_ascii c in
  ((9 <=? n)%nat && (n <=? 13)%nat) || ((28 <=? n)%nat && (n <=? 32)%nat).

Definition is_upper (c : ascii) : bool :=
  let n := nat_of_ascii c in (65 <=? n)%nat && (n <=? 90)%nat.

Definition is_lower (c : ascii) : bool :=
  let n := nat_of_ascii c in (97 <=? n)%nat && (n <=? 122)%nat.

Definition lower_char (c : ascii) : ascii :=
  if is_upper c then ascii_of_nat (nat_of_ascii c + 32) else c.

Definition upper_char (c : ascii) : ascii :=
  if is_lower c then ascii_of_nat (nat_of_ascii c - 32) else c.

Definition is_empty (s : string) : bool :=
  match s with EmptyString => true | String _ _ => false end.

Fixpoint lstrip (s : string) : string :=
  match s with
  | EmptyString => EmptyString
  | String c s' => if isspace c then lstrip s' else s
  end.

Fixpoint rstrip (s : string) : string :=
  match s with
  | EmptyString => EmptyString
  | String c s' =>
      let r := rstrip s' in
      if is_empty r && isspace c then EmptyString else String c r
  end.

(** [s.strip()] *)
Definition strip (s : string) : string := rstrip (lstrip s).

(** [s.lower()] *)
Fixpoint lower (s : string) : string :=
  match s with
  | EmptyString => EmptyString
  | String c s' => String (lower_char c) (lower s')
  end.

(** [s.title()]: a cased character is upper-cased when the previous
    character is not cased, lower-cased otherwise. *)
Fixpoint title_from (prev_cased : bool) (s : string) : string :=
  match s with
  | EmptyString => EmptyString
  | String c s' =>
      if is_lower c || is_upper c
      then String (if prev_cased then lower_char c else upper_char c)
                  (title_from true s')
      else String c (title_from false s')
  end.

Definition title (s : string) : string := title_from false s.

(** [sep.join(parts)] *)
Fixpoint join (sep : string) (parts : list string) : string :=
  match parts with
  | [] => EmptyString
  | [p] => p
  | p :: rest => p +:+ sep +:+ join sep rest
  end.

(** Truth value of [str | None]: [None] and the empty string are false. *)
Definition truthy (o : option string) : bool :=
  match o with
  | Some s => negb (is_empty s)
  | None => false
  end.

(** [a or b] on [str | None]. *)
Definition or_ (a b : option string) : option string :=
  if truthy a then a else b.

(** [a or "literal"]: the result is a string. *)
Definition or_str (a : option string) (b : string) : string :=
  match a with
  | Some s => if is_empty s then b else s
  | None => b
  end.

(** [s or None] for a string [s]. *)
Definition or_none (s : string) : option string :=
  if is_empty s then None else Some s.

(** Membership of a string in a set literal. *)
Definition mem (s : string) (l : list string) : bool :=
  existsb (String.eqb s) l.

(** [enumerate(l)] *)
Fixpoint enumerate_from {A} (i : Z) (l : list A) : list (Z * A) :=
  match l with
  | [] => []
  | x :: l' => (i, x) :: enumerate_from (i + 1) l'
  end.

Definition enumerate {A} (l : list A) : list (Z * A) := enumerate_from 0 l.

(** [c in s], for a one-character [c]. *)
Fixpoint contains (c : ascii) (s : string) : bool :=
  match s with
  | EmptyString => false
  | String a s' => Ascii.eqb a c || contains c s'
  end.

(** The text after the last [c]; [None] when [c] does not occur. *)
Fixpoint after_last (c : ascii) (s : string) : option string :=
  match s with
  | EmptyString => None
  | String a s' =>
      match after_last c s' with
      | Some r => Some r
      | None => if Ascii.eqb a c then Some s' else None
      end
  end.

(** The text before the last [c]; the whole string when [c] does not
    occur. *)
Fixpoint before_last (c : ascii) (s : string) : string :=
  match s with
  | EmptyString => EmptyString
  | String a s' =>
      if contains c s' then String a (before_last c s')
      else if Ascii.eqb a c then EmptyString else String a s'
  end.

(** [s.rsplit(c, 1)] *)
Definition rsplit1 (c : ascii) (s : string) : list string :=
  match after_last c s with
  | Some r => [before_last c s; r]
  | None => [s]
  end.

Definition cons_word (w : string) (ws : list string) : list string :=
  if is_empty w then ws else w :: ws.

(** The word that starts at the head of [s] (empty when [s] starts with
    whitespace) and the words after it. *)
Fixpoint split_go (s : string) : string * list string :=
  match s with
  | EmptyString => (EmptyString, [])
  | String c s' =>
      let '(w, ws) := split_go s' in
      if isspace c then (EmptyString, cons_word w ws) else (String c w, ws)
  end.

(** [s.split()]: the maximal runs of non-whitespace characters. *)
Definition split (s : string) : list string :=
  let '(w, ws) := split_go s in cons_word w ws.


End Py.

Arguments Py.isspace : simpl never.
Arguments Py.is_upper : simpl never.
Arguments Py.is_lower : simpl never.

(** ** Exceptions

    Every class below derives from Python's [Exception], so a handler
    written [except Exception] catches all of them. *)

Inductive exn : Type :=
| FileNotFoundError (msg : string)
| ValueError (msg : string)
| RuntimeError (msg : string)
| ImportError (msg : string)
| LibraryError (msg : string).
  (* [LibraryError]: any other exception raised inside a third-party call *)

(** [str(e)] *)
Definition exn_str (e : exn) : string :=
  match e with
  | FileNotFoundError m | ValueError m | RuntimeError m
  | ImportError m | LibraryError m => m
  end.

Definition is_ImportError (e : exn) : bool :=
  match e with ImportError _ => true | _ => false end.

Inductive res (A : Type) : Type :=
| Ok (a : A)
| Raise (e : exn).
Arguments Ok {A} a.
Arguments Raise {A} e.

Definition is_ok {A} (r : res A) : bool :=
  match r with Ok _ => true | Raise _ => false end.

(** ** Data model *)

(** A LangChain [Document]: text and its source metadata. *)
Record Document : Type := mkDocument {
  page_content : string;
  metadata : list (string * string)
}.

(** An embedding vector.  Its numeric content plays no role below. *)
Definition Vector : Type := list Z.

Inductive Embeddings : Type :=
| OpenAIEmbeddings
| HuggingFaceEmbeddings (hf_model_name : string).

Inductive ChatClass : Type :=
| ChatOpenAI
| ChatGoogleGenerativeAI
| ChatAnthropic
| ChatGroq.

(** A constructed chat client (every client is built with
    [temperature=0.0], which is not recorded). *)
Record ChatHandle : Type := mkChatHandle {
  chat_class : ChatClass;
  chat_model_name : string;
  chat_api_key : option string
}.

(** What [chat_model.invoke] returns: its [content] attribute and its
    [str()] rendering. *)
Record AIMessage : Type := mkAIMessage {
  content : string;
  message_str : string
}.

(** A prompt message: role and text. *)
Definition Message : Type := (string * string)%type.

Inductive Loader : Type :=
| PyPDFLoader
| PyMuPDFLoader
| UnstructuredWordDocumentLoader
| TextLoader.

(** The object returned by [vectorstore.as_retriever(...)]. *)
Record VectorStoreRetriever : Type := mkRetriever {
  vs_directory : string;
  vs_collection : string;
  vs_embedding : Embeddings;
  vs_search_type : string;
  vs_k : nat;
  vs_fetch_k : nat
}.

(** One serialized chunk: [{"id": .., "text": .., "metadata": ..}]. *)
Record ChunkJson : Type := mkChunkJson {
  chunk_id : Z;
  chunk_text : string;
  chunk_metadata : list (string * string)
}.

(** *** Database rows (timestamps omitted) *)

Record DocumentRow : Type := mkDocumentRow {
  doc_id : Z;
  doc_user_id : Z;
  doc_filename : string;
  doc_original_name : string;
  doc_file_path : string;
  doc_file_size : Z;
  doc_indexed : bool
}.

Record LLMSettings : Type := mkLLMSettings {
  preferred_provider : option string;
  settings_model_name : option string;
  openai_api_key : option string;
  gemini_api_key : option string;
  claude_api_key : option string;
  groq_api_key : option string
}.

Record ChatHistory : Type := mkChatHistory {
  chat_id : Z;
  chat_user_id : Z;
  chat_document_id : Z;
  chat_question : string;
  chat_answer : string;
  chat_context_json : option (list ChunkJson)
}.

Record Database : Type := mkDatabase {
  documents : list DocumentRow;
  llm_settings : gmap Z LLMSettings;      (* keyed by user id (unique) *)
  chat_history : list ChatHistory
}.

(** *** External calls, as they are logged *)

Inductive event : Type :=
| PrintLine (msg : string)
| LoadFile (l : Loader) (path : string)
| Split (chunk_size chunk_overlap : nat) (docs : list Document)
| NewEmbeddings (e : Embeddings)
| OpenCollection (dir name : string)
| EmbedDocuments (e : Embeddings) (texts : list string)
| PersistCollection (dir name : string) (entries : list (Vector * Document))
| NewChatModel (h : ChatHandle)
| SearchCollection (r : VectorStoreRetriever) (query : string)
| InvokeChatModel (h : ChatHandle) (messages : list Message).

(** *** The world a request runs in *)

Record World : Type := mkWorld {
  chroma : gmap (string * string) (list (Vector * Document));
      (* persisted collections, keyed by (persist directory, name) *)
  db : Database;
  trace : list event                      (* oldest first *)
}.

Definition set_chroma (c : gmap (string * string) (list (Vector * Document)))
    (w : World) : World :=
  {| chroma := c; db := db w; trace := trace w |}.

Definition set_db (d : Database) (w : World) : World :=
  {| chroma := chroma w; db := d; trace := trace w |}.

Definition add_event (ev : event) (w : World) : World :=
  {| chroma := chroma w; db := db w; trace := trace w ++ [ev] |}.

(** *** What the surrounding system and the third-party packages do

    One field per external entry point the repository calls.  A field of
    type [res _] is a call that may raise. *)

Record Externals : Type := mkExternals {
  (* os *)
  environ : gmap string string;
  path_exists : string -> bool;
  path_isabs : string -> bool;
  path_join : string -> string -> string;
  path_basename : string -> string;
  path_splitext : string -> string * string;
  (* packages *)
  importable : string -> bool;
  run_loader : Loader -> string -> res (list Document);
  split_documents : nat -> nat -> list Document -> list Document;
  new_embeddings : Embeddings -> res unit;
  chroma_open : string -> string -> res unit;
  embed_documents : Embeddings -> list string -> res (list Vector);
  mmr_search : VectorStoreRetriever -> list (Vector * Document) -> string
               -> res (list Document);
  new_chat_model : ChatHandle -> res unit;
  chat_invoke : ChatHandle -> list Message -> res AIMessage
}.

(** [os.getenv(name)] *)
Definition getenv (X : Externals) (name : string) : option string :=
  environ X !! name.

(** ** The effect monad: state, exceptions and the call log *)

Definition M (A : Type) : Type := World -> res A * World.

#[global] Instance M_ret : MRet M := fun A a w => (Ok a, w).

#[global] Instance M_bind : MBind M := fun A B f m w =>
  match m w with
  | (Ok a, w') => f a w'
  | (Raise e, w') => (Raise e, w')
  end.

Definition raise {A} (e : exn) : M A := fun w => (Raise e, w).

(** A call whose outcome the environment decides. *)
Definition lift {A} (r : res A) : M A := fun w => (r, w).

Definition log (ev : event) : M unit := fun w => (Ok tt, add_event ev w).

(** [print(msg)] *)
Definition print (msg : string) : M unit := log (PrintLine msg).

Definition get_world : M World := fun w => (Ok w, w).

Definition modify (f : World -> World) : M unit := fun w => (Ok tt, f w).

(** [try: body / except Exception as e: handler e] *)
Definition try_except {A} (body : M A) (handler : exn -> M A) : M A :=
  fun w =>
    match body w with
    | (Ok a, w') => (Ok a, w')
    | (Raise e, w') => handler e w'
    end.

(** [try: body / except ImportError: handler]; other exceptions pass. *)
Definition try_except_ImportError {A} (body : M A) (handler : M A) : M A :=
  fun w =>
    match body w with
    | (Ok a, w') => (Ok a, w')
    | (Raise e, w') => if is_ImportError e then handler w' else (Raise e, w')
    end.

(** The events a run appended to the log. *)
Definition emitted {A} (m : M A) (w : World) : list event :=
  drop (length (trace w)) (trace (snd (m w))).

(** *** Further external calls: index and file cleanup, token decoding *)

(** What [jwt.decode] does with a token: the payload's [user_id] and
    [email] entries, one of the two errors the code distinguishes, or any
    other exception, with its message. *)
Inductive JwtOutcome : Type :=
| JwtPayload (user_id : option Z) (email : option string)
| ExpiredSignatureError
| InvalidTokenError
| JwtError (message : string).

(** What [os.remove] does with a path: it returns, or it raises an
    [OSError] of whatever subclass ([FileNotFoundError],
    [PermissionError], [IsADirectoryError], ...), or it raises something
    else (a [ValueError] for a path with a null character). *)
Inductive RemoveOutcome : Type :=
| Removed
| RemoveOSError (subclass message : string)
| RemoveRaises (e : exn).

(** [isinstance(e, OSError)] on the exceptions of [exn]. *)
Definition is_OSError (e : exn) : bool :=
  match e with FileNotFoundError _ => true | _ => false end.

(** [try: <remove> except OSError: <handler>] *)
Definition try_except_OSError (body : RemoveOutcome) (handler : M unit)
    : M unit :=
  match body with
  | Removed => mret tt
  | RemoveOSError _ _ => handler
  | RemoveRaises e => if is_OSError e then handler else raise e
  end.

Record Services : Type := mkServices {
  (* [chromadb.PersistentClient(path=..).delete_collection(name=..)] *)
  chroma_delete : string -> string -> res unit;
  (* [os.remove(path)] *)
  os_remove : string -> RemoveOutcome;
  (* [jwt.decode(token, SECRET_KEY, algorithms=[ALGORITHM])] *)
  jwt_decode : string -> JwtOutcome
}.

(** ** [src/rag/data_loader.py] *)

Module data_loader.
Section data_loader.
Context (X : Externals).

Record LoadDocuments : Type := mkLoadDocuments {
  uploads_dir : string;
  uploaded_file : string
}.

(** [LoadDocuments(uploaded_file)], with the default [uploads_dir]. *)
Definition init (uploaded_file : string) : LoadDocuments :=
  {| uploads_dir := "uploads"; uploaded_file := uploaded_file |}.

Definition _resolve_path (self : LoadDocuments) : string :=
  if path_isabs X (uploaded_file self) then uploaded_file self
  else path_join X (uploads_dir self) (uploaded_file self).

(** [loader = L(file_path); return loader.load()] *)
Definition load_with (l : Loader) (file_path : string) : M (list Document) :=
  log (LoadFile l file_path);; lift (run_loader X l file_path).

Definition load_document (self : LoadDocuments) : M (list Document) :=
  let file_path := _resolve_path self in
  if negb (path_exists X file_path) then
    raise (FileNotFoundError ("Uploaded file not found: " +:+ file_path))
  else
    let ext := Py.lower (snd (path_splitext X file_path)) in
    if String.eqb ext ".pdf" then
      (* Try PyPDF first, fall back to PyMuPDF for complex PDFs *)
      try_except (load_with PyPDFLoader file_path)
                 (fun _ => load_with PyMuPDFLoader file_path)
    else if Py.mem ext [".doc"; ".docx"] then
      load_with UnstructuredWordDocumentLoader file_path
    else if String.eqb ext ".txt" then
      load_with TextLoader file_path
    else
      raise (ValueError ("Unsupported file type for RAG pipeline: " +:+ ext)).

End data_loader.
End data_loader.

(** ** [src/rag/embedding.py] *)

Module embedding.
Section embedding.
Context (X : Externals).

Record EmbeddingsCreator : Type := mkEmbeddingsCreator {
  provider : option string
}.

(** [EmbeddingsCreator()]: the optional explicit override. *)
Definition init : EmbeddingsCreator :=
  {| provider :=
       Py.or_none
         (Py.lower
            (Py.strip
               (Py.or_str (getenv X "LEGAL_EAGLE_EMBEDDINGS_PROVIDER") ""))) |}.

(** [provider not in {"openai", "huggingface"}] *)
Definition unrecognized (provider : option string) : bool :=
  match provider with
  | Some p => negb (Py.mem p ["openai"; "huggingface"])
  | None => true
  end.

(** Calling an embeddings class. *)
Definition construct (e : Embeddings) : M Embeddings :=
  log (NewEmbeddings e);; lift (new_embeddings X e);; mret e.

Definition create_embeddings (self : EmbeddingsCreator) : M Embeddings :=
  let provider0 := provider self in
  let provider1 :=
    if unrecognized provider0 then
      if Py.truthy (getenv X "OPENAI_API_KEY") then Some "openai"
      else Some "huggingface"
    else provider0 in
  if bool_decide (provider1 = Some "openai") then
    construct OpenAIEmbeddings
  else
    let model_name :=
      default "sentence-transformers/all-MiniLM-L6-v2"
              (getenv X "LEGAL_EAGLE_HF_EMBEDDING_MODEL") in
    construct (HuggingFaceEmbeddings model_name).

End embedding.
End embedding.

(** ** [src/rag/retriever.py] *)

Module retriever.
Section retriever.
Context (X : Externals).

Record Retriever : Type := mkRetriever_ {
  documents_ : list Document;
  embedding_ : Embeddings;
  persist_directory : string;
  collection_name : string
}.

Definition init (documents : list Document) (embedding : Embeddings)
    (persist_directory : string) (collection_name : option string)
    : Retriever :=
  {| documents_ := documents;
     embedding_ := embedding;
     persist_directory := persist_directory;
     collection_name := Py.or_str collection_name "contract" |}.

(** The entries persisted under a collection; none when it is absent. *)
Definition entries_of (w : World) (dir name : string)
    : list (Vector * Document) :=
  default [] (chroma w !! (dir, name)).

(** [Chroma(embedding_function=.., persist_directory=.., collection_name=..)] *)
Definition Chroma (embedding : Embeddings) (dir name : string)
    : M (string * string) :=
  log (OpenCollection dir name);;
  lift (chroma_open X dir name);;
  mret (dir, name).

(** [vectorstore._collection.count()] *)
Definition count (vectorstore : string * string) : M nat :=
  w ← get_world;
  mret (length (entries_of w vectorstore.1 vectorstore.2)).

(** [Chroma.from_documents(documents=splits, embedding=.., ..)]: every
    chunk text is sent to the embedding backend and the resulting
    (vector, chunk) pairs are added to the collection and persisted. *)
Definition Chroma_from_documents (splits : list Document)
    (embedding : Embeddings) (dir name : string) : M (string * string) :=
  let texts := map page_content splits in
  log (EmbedDocuments embedding texts);;
  vectors ← lift (embed_documents X embedding texts);
  let entries := zip vectors splits in
  log (PersistCollection dir name entries);;
  modify (fun w =>
    set_chroma (<[(dir, name) := entries_of w dir name ++ entries]> (chroma w)) w);;
  mret (dir, name).

(** [vectorstore.as_retriever(search_type=.., search_kwargs={"k":.., "fetch_k":..})] *)
Definition as_retriever (vectorstore : string * string)
    (embedding : Embeddings) (search_type : string) (k fetch_k : nat)
    : VectorStoreRetriever :=
  {| vs_directory := vectorstore.1;
     vs_collection := vectorstore.2;
     vs_embedding := embedding;
     vs_search_type := search_type;
     vs_k := k;
     vs_fetch_k := fetch_k |}.

(** [retriever.get_relevant_documents(question)] *)
Definition get_relevant_documents (r : VectorStoreRetriever)
    (question : string) : M (list Document) :=
  log (SearchCollection r question);;
  w ← get_world;
  lift (mmr_search X r (entries_of w (vs_directory r) (vs_collection r)) question).

Definition get_retriever (self : Retriever) : M (option VectorStoreRetriever) :=
  let dir := persist_directory self in
  let name := collection_name self in
  try_except
    (log (Split 1200 150 (documents_ self));;
     let splits := split_documents X 1200 150 (documents_ self) in
     (* Try to load an existing persisted collection for this document *)
     vectorstore ←
       try_except
         (vectorstore ← Chroma (embedding_ self) dir name;
          n ← count vectorstore;
          (* If the collection is empty, fall back to building it *)
          if (n =? 0)%nat then
            raise (ValueError "Empty vector store, rebuilding index")
          else mret vectorstore)
         (fun _ => Chroma_from_documents splits (embedding_ self) dir name);
     (* Use MMR for more diverse, robust retrieval *)
     let retriever := as_retriever vectorstore (embedding_ self) "mmr" 6 20 in
     print "Retriever created successfully!";;
     mret (Some retriever))
    (fun e =>
       print ("Retriever error: " +:+ exn_str e);;
       mret None).

End retriever.
End retriever.

(** ** [src/rag/chat_model.py] *)

Module chat_model.
Section chat_model.
Context (X : Externals).

Record ChatModel : Type := mkChatModel {
  provider : string;
  model_name : string;
  api_key : option string
}.

Definition init (provider : option string) (model_name : string)
    (api_key : option string) : ChatModel :=
  {| provider := Py.lower (Py.or_str provider "openai");
     model_name := model_name;
     api_key := api_key |}.

(** [from <module> import <class>] *)
Definition import (module : string) : M unit :=
  if importable X module then mret tt
  else raise (ImportError ("No module named '" +:+ module +:+ "'")).

(** Calling a chat class with [model], [temperature=0.0] and [api_key]. *)
Definition construct (cls : ChatClass) (self : ChatModel) : M ChatHandle :=
  let h := {| chat_class := cls;
              chat_model_name := model_name self;
              chat_api_key := api_key self |} in
  log (NewChatModel h);; lift (new_chat_model X h);; mret h.

Definition initialize_chat_model (self : ChatModel) : M ChatHandle :=
  if String.eqb (provider self) "openai" then
    import "langchain_openai";;
    construct ChatOpenAI self
  else if String.eqb (provider self) "gemini" then
    try_except_ImportError (import "langchain_google_genai")
      (raise (RuntimeError
         "Gemini provider selected but 'langchain-google-genai' is not installed."));;
    construct ChatGoogleGenerativeAI self
  else if String.eqb (provider self) "claude" then
    try_except_ImportError (import "langchain_anthropic")
      (raise (RuntimeError
         "Claude provider selected but 'langchain-anthropic' is not installed."));;
    construct ChatAnthropic self
  else if String.eqb (provider self) "groq" then
    try_except_ImportError (import "langchain_groq")
      (raise (RuntimeError
         "Groq provider selected but 'langchain-groq' is not installed."));;
    construct ChatGroq self
  else
    raise (ValueError ("Unsupported LLM provider: " +:+ provider self)).

End chat_model.
End chat_model.

(** ** [src/rag/conversation_chain.py] *)

Module conversation_chain.
Section conversation_chain.
Context (X : Externals).

(** The system prompt up to its [{context}] placeholder, which ends it. *)
Definition system_prompt_head : string :=
  "You are a legal expert and contract analyzer." +:+ Py.nl +:+
  "Use the following context to answer the user's question thoroughly and accurately."
  +:+ Py.nl +:+ Py.nl +:+
  "If you cannot find the answer in the context, say " +:+ Py.quote +:+
  "I don't know based on the provided document." +:+ Py.quote
  +:+ Py.nl +:+ Py.nl +:+
  "Context:" +:+ Py.nl.

(** [prompt.format_messages(context=.., input=..)] *)
Definition format_messages (context input : string) : list Message :=
  [("system", system_prompt_head +:+ context); ("human", input)].

(** The closure the chain is: the chat model and the retriever (which
    is [None] when [get_retriever] gave up). *)
Record Chain : Type := mkChain {
  chain_chat_model : ChatHandle;
  chain_retriever : option VectorStoreRetriever
}.

(** The returned dict [{"answer": .., "context": ..}]. *)
Record Output : Type := mkOutput {
  answer : string;
  context : list Document
}.

Definition create_retrieval_qa_chain (chat_model : ChatHandle)
    (retriever : option VectorStoreRetriever) : Chain :=
  {| chain_chat_model := chat_model; chain_retriever := retriever |}.

(** [chat_model.invoke(messages)] *)
Definition chat_model_invoke (h : ChatHandle) (messages : list Message)
    : M AIMessage :=
  log (InvokeChatModel h messages);; lift (chat_invoke X h messages).

(** [_invoke], the body of the chain; [inputs] is the input dict. *)
Definition _invoke (chain : Chain) (inputs : gmap string string) : M Output :=
  let question := Py.strip (Py.or_str (inputs !! "input") "") in
  if Py.is_empty question then
    mret {| answer := ""; context := [] |}
  else
    (* Retrieve relevant chunks *)
    docs ← match chain_retriever chain with
           | Some r => retriever.get_relevant_documents X r question
           | None => mret []
           end;
    let context_text :=
      Py.join (Py.nl +:+ Py.nl)
        (map page_content
           (List.filter (fun d => negb (Py.is_empty (page_content d))) docs)) in
    (* Build messages via the prompt template *)
    let messages := format_messages context_text question in
    (* Call the underlying chat model *)
    result ← chat_model_invoke (chain_chat_model chain) messages;
    let answer := Py.or_str (Some (content result)) (message_str result) in
    mret {| answer := answer; context := docs |}.

(** [chain.invoke(inputs)] *)
Definition invoke (chain : Chain) (inputs : gmap string string) : M Output :=
  _invoke chain inputs.

End conversation_chain.
End conversation_chain.

(** ** [src/rag/rag_pipeline.py] *)

Module rag_pipeline.
Section rag_pipeline.
Context (X : Externals).

Record RAGPipeline : Type := mkRAGPipeline {
  uploaded_file : string;
  vector_db_path : string;
  llm_provider : string;
  llm_model : string;
  llm_api_key : option string
}.

(** [RAGPipeline(uploaded_file, vector_db_path)], with the defaults. *)
Definition init (uploaded_file vector_db_path : string) : RAGPipeline :=
  {| uploaded_file := uploaded_file;
     vector_db_path := vector_db_path;
     llm_provider := "openai";
     llm_model := "gpt-4o-mini";
     llm_api_key := None |}.

(** The per-document collection name. *)
Definition collection_name_of (uploaded_file : string) : string :=
  Py.or_str (Some (path_splitext X (path_basename X uploaded_file)).1) "contract".

Definition pipeline (self : RAGPipeline) : M (option VectorStoreRetriever) :=
  documents ← data_loader.load_document X
                (data_loader.init (uploaded_file self));
  embedding ← embedding.create_embeddings X (embedding.init X);
  let collection_name := collection_name_of (uploaded_file self) in
  retriever ← retriever.get_retriever X
                (retriever.init documents embedding (vector_db_path self)
                   (Some collection_name));
  print "Retriever Created Successfully!";;
  mret retriever.

Definition qa_chain (self : RAGPipeline) : M conversation_chain.Chain :=
  chat_model ← chat_model.initialize_chat_model X
                 (chat_model.init (Some (llm_provider self)) (llm_model self)
                    (llm_api_key self));
  retriever ← pipeline self;
  mret (conversation_chain.create_retrieval_qa_chain chat_model retriever).

End rag_pipeline.
End rag_pipeline.

(** ** [src/backend/server.py]: the document and chat handlers *)


Module server.
Section server.
Context (X : Externals).

(** Module-level constants. *)
Definition vector_store_db : string := "../data/chroma_db".
Definition OPENAI_API_KEY : option string := getenv X "OPENAI_API_KEY".
Definition GEMINI_API_KEY : option string := getenv X "GEMINI_API_KEY".
Definition ANTHROPIC_API_KEY : option string := getenv X "ANTHROPIC_API_KEY".
Definition GROQ_API_KEY : option string := getenv X "GROQ_API_KEY".

(** What a handler returns: [jsonify(body), status]. *)
Inductive Body : Type :=
| ErrorJson (error : string)
| DocumentJson (document : DocumentRow)
| ChatJson (chat_id : Z) (answer : string) (contexts : list ChunkJson)
| ChunksJson (chunks : list ChunkJson).

Definition Response : Type := (Body * Z)%type.

(** The authenticated request: [request.user_id] and the JSON body
    (string-valued fields). *)
Record Request : Type := mkRequest {
  request_user_id : Z;
  request_json : gmap string string
}.

(** *** The database session *)

Definition next_id (ids : list Z) : Z := 1 + foldr Z.max 0 ids.

Definition set_documents (rows : list DocumentRow) (d : Database) : Database :=
  {| documents := rows; llm_settings := llm_settings d;
     chat_history := chat_history d |}.

(** [db.query(Document).filter(Document.id == .., Document.user_id == ..).first()] *)
Definition query_document (document_id user_id : Z) : M (option DocumentRow) :=
  w ← get_world;
  mret (head (List.filter
                (fun d => (doc_id d =? document_id) && (doc_user_id d =? user_id))
                (documents (db w)))).

(** [db.add(document); db.commit(); db.refresh(document)] *)
Definition add_document (user_id : Z) (filename original_name file_path : string)
    (file_size : Z) : M DocumentRow :=
  w ← get_world;
  let row := {| doc_id := next_id (map doc_id (documents (db w)));
                doc_user_id := user_id;
                doc_filename := filename;
                doc_original_name := original_name;
                doc_file_path := file_path;
                doc_file_size := file_size;
                doc_indexed := false |} in
  modify (fun w => set_db (set_documents (documents (db w) ++ [row]) (db w)) w);;
  mret row.

Definition mark_indexed (d : DocumentRow) : DocumentRow :=
  {| doc_id := doc_id d; doc_user_id := doc_user_id d;
     doc_filename := doc_filename d; doc_original_name := doc_original_name d;
     doc_file_path := doc_file_path d; doc_file_size := doc_file_size d;
     doc_indexed := true |}.

(** [document.indexed = True; db.commit()] *)
Definition commit_indexed (document : DocumentRow) : M DocumentRow :=
  modify (fun w =>
    set_db (set_documents
              (map (fun d => if doc_id d =? doc_id document
                             then mark_indexed d else d)
                   (documents (db w)))
              (db w)) w);;
  mret (mark_indexed document).

(** [LLMSettings(user_id=user_id)], once the column defaults apply. *)
Definition new_settings : LLMSettings :=
  {| preferred_provider := Some "openai";
     settings_model_name := Some "gpt-4o-mini";
     openai_api_key := None; gemini_api_key := None;
     claude_api_key := None; groq_api_key := None |}.

Definition get_or_create_llm_settings (user_id : Z) : M LLMSettings :=
  w ← get_world;
  match llm_settings (db w) !! user_id with
  | Some settings => mret settings
  | None =>
      let settings := new_settings in
      modify (fun w =>
        set_db {| documents := documents (db w);
                  llm_settings := <[user_id := settings]> (llm_settings (db w));
                  chat_history := chat_history (db w) |} w);;
      mret settings
  end.

(** [db.add(chat_entry); db.commit(); db.refresh(chat_entry)] *)
Definition add_chat_entry (user_id document_id : Z) (question answer : string)
    (context_json : option (list ChunkJson)) : M ChatHistory :=
  w ← get_world;
  let row := {| chat_id := next_id (map chat_id (chat_history (db w)));
                chat_user_id := user_id;
                chat_document_id := document_id;
                chat_question := question;
                chat_answer := answer;
                chat_context_json := context_json |} in
  modify (fun w =>
    set_db {| documents := documents (db w);
              llm_settings := llm_settings (db w);
              chat_history := chat_history (db w) ++ [row] |} w);;
  mret row.

(** *** [upload_document], from the point where the file has been
    validated and saved (lines 388-414): [storage_name],
    [original_name], [file_path] and [file_size] are what the first
    half of the handler computed. *)
Definition upload_document (user_id : Z)
    (storage_name original_name file_path : string) (file_size : Z)
    : M Response :=
  document ← add_document user_id storage_name original_name file_path file_size;
  (* Try to build RAG index for this document *)
  document ←
    try_except
      (let rag := rag_pipeline.init storage_name vector_store_db in
       (* Only build the vector index here (no LLM required) *)
       rag_pipeline.pipeline X rag;;
       commit_indexed document)
      (fun e =>
         (* Document record is still valid; just log indexing failure *)
         print ("Indexing error for document " +:+ pretty (doc_id document)
                +:+ ": " +:+ exn_str e);;
         mret document);
  mret (DocumentJson document, 201).

(** *** [chat_with_document] *)

(** Lines 511-524: the model name, with a default per provider. *)
Definition resolve_model_name (requested_model : option string)
    (settings : LLMSettings) (provider : string) : string :=
  match requested_model with
  | Some m => m
  | None =>
      if Py.truthy (settings_model_name settings) then
        Py.or_str (settings_model_name settings) ""
      else if String.eqb provider "openai" then "gpt-4o-mini"
      else if String.eqb provider "gemini" then "gemini-1.5-pro-latest"
      else if String.eqb provider "claude" then "claude-3-5-sonnet-20241022"
      else "llama3-70b-8192"
  end.

(** Lines 526-536: the API key by provider (user-specific first, then
    env); the outer [None] is the final [else] branch. *)
Definition resolve_api_key (settings : LLMSettings) (provider : string)
    : option (option string) :=
  if String.eqb provider "openai" then
    Some (Py.or_ (openai_api_key settings) OPENAI_API_KEY)
  else if String.eqb provider "gemini" then
    Some (Py.or_ (gemini_api_key settings) GEMINI_API_KEY)
  else if String.eqb provider "claude" then
    Some (Py.or_ (claude_api_key settings) ANTHROPIC_API_KEY)
  else if String.eqb provider "groq" then
    Some (Py.or_ (groq_api_key settings) GROQ_API_KEY)
  else None.

(** Lines 572-589: the retrieval context, serialized. *)
Definition serialize_contexts (context_docs : list Document) : list ChunkJson :=
  omap (fun '(idx, doc_obj) =>
          if Py.is_empty (page_content doc_obj) then None
          else Some {| chunk_id := idx;
                       chunk_text := page_content doc_obj;
                       chunk_metadata := metadata doc_obj |})
       (Py.enumerate context_docs).

(** Lines 541-607: build the chain, ask, store the exchange. *)
Definition answer_question (request : Request) (document_id : Z)
    (document : DocumentRow) (question : string)
    (rag : rag_pipeline.RAGPipeline) : M Response :=
  built ←
    try_except
      (chain ← rag_pipeline.qa_chain X rag;
       commit_indexed document;;
       mret (inl chain))
      (fun e =>
         print ("Error building QA chain for document " +:+ pretty document_id
                +:+ ": " +:+ exn_str e);;
         mret (inr (ErrorJson "Failed to analyze document", 500)));
  match built with
  | inr response => mret response
  | inl chain =>
      asked ←
        try_except
          (response ← conversation_chain.invoke X chain {[ "input" := question ]};
           mret (inl (conversation_chain.answer response,
                      conversation_chain.context response)))
          (fun e =>
             print ("Error during chat invocation: " +:+ exn_str e);;
             mret (inr (ErrorJson "Error generating answer", 500)));
      match asked with
      | inr response => mret response
      | inl (answer, context_docs) =>
          (* Serialize retrieval context (for highlighting in UI) *)
          let contexts := serialize_contexts context_docs in
          chat_entry ←
            add_chat_entry (request_user_id request) (doc_id document)
              question answer
              (match contexts with [] => None | _ => Some contexts end);
          mret (ChatJson (chat_id chat_entry) (chat_answer chat_entry) contexts,
                200)
      end
  end.

Definition chat_with_document (request : Request) (document_id : Z)
    : M Response :=
  let data := request_json request in
  let question := Py.strip (Py.or_str (data !! "question") "") in
  let requested_provider :=
    Py.or_none (Py.lower (Py.strip (Py.or_str (data !! "provider") ""))) in
  let requested_model :=
    Py.or_none (Py.strip (Py.or_str (data !! "model_name") "")) in
  if Py.is_empty question then
    mret (ErrorJson "Question is required", 400)
  else
    document ← query_document document_id (request_user_id request);
    match document with
    | None => mret (ErrorJson "Document not found", 404)
    | Some document =>
        (* Resolve LLM settings for this user *)
        settings ← get_or_create_llm_settings (request_user_id request);
        let provider :=
          Py.lower
            (Py.or_str
               (Py.or_ requested_provider (preferred_provider settings))
               "openai") in
        (* Basic validation of provider *)
        if negb (Py.mem provider ["openai"; "gemini"; "claude"; "groq"]) then
          mret (ErrorJson "Unsupported LLM provider", 400)
        else
          let model_name := resolve_model_name requested_model settings provider in
          (* Resolve API key by provider (user-specific first, then env) *)
          match resolve_api_key settings provider with
          | None => mret (ErrorJson "Unsupported LLM provider", 400)
          | Some api_key =>
              if negb (Py.truthy api_key) then
                mret (ErrorJson ("No API key configured for provider "
                                 +:+ Py.title provider), 400)
              else
                answer_question request document_id document question
                  {| rag_pipeline.uploaded_file := doc_filename document;
                     rag_pipeline.vector_db_path := vector_store_db;
                     rag_pipeline.llm_provider := provider;
                     rag_pipeline.llm_model := model_name;
                     rag_pipeline.llm_api_key := api_key |}
          end
    end.

(** *** [document_chunks] *)
Definition document_chunks (request : Request) (document_id : Z)
    : M Response :=
  document ← query_document document_id (request_user_id request);
  match document with
  | None => mret (ErrorJson "Document not found", 404)
  | Some document =>
      loaded ←
        try_except
          (docs ← data_loader.load_document X
                    (data_loader.init (doc_filename document));
           mret (inl docs))
          (fun e =>
             print ("Error loading document content for chunks (document "
                    +:+ pretty document_id +:+ "): " +:+ exn_str e);;
             mret (inr (ErrorJson "Failed to load document content", 500)));
      match loaded with
      | inr response => mret response
      | inl docs =>
          log (Split 1200 150 docs);;
          let splits := split_documents X 1200 150 docs in
          let chunks :=
            map (fun '(idx, doc_obj) =>
                   {| chunk_id := idx;
                      chunk_text := Py.or_str (Some (page_content doc_obj)) "";
                      chunk_metadata := metadata doc_obj |})
                (Py.enumerate splits) in
          mret (ChunksJson chunks, 200)
      end
  end.

(** *** [allowed_file] *)

Definition ALLOWED_EXTENSIONS : list string := ["txt"; "pdf"; "docx"; "doc"].

Definition allowed_file (filename : string) : bool :=
  Py.contains "." filename
  && match Py.rsplit1 "." filename !! 1%nat with
     | Some ext => Py.mem (Py.lower ext) ALLOWED_EXTENSIONS
     | None => false             (* [IndexError]; excluded by the test before *)
     end.

(** *** [delete_document_vector_index] and [document_detail] *)

Context (H : Services).

(** Best-effort cleanup of the Chroma collection of a document. *)
Definition delete_document_vector_index (filename : string) : M unit :=
  try_except
    (let base_name :=
       Py.or_str (Some (path_splitext X (path_basename X filename)).1)
         "contract" in
     lift (chroma_delete H vector_store_db base_name);;
     modify (fun w =>
       set_chroma (delete (vector_store_db, base_name) (chroma w)) w))
    (fun _ =>
       (* Index cleanup is non-critical; ignore failures *)
       mret tt).

Inductive Method : Type := GET | DELETE.

Inductive DetailBody : Type :=
| DetailError (error : string)
| DetailDocument (document : DocumentRow)
| DetailMessage (message : string).

(** [db.delete(document); db.commit()].  [Document.chat_history] is
    declared with [cascade='all, delete-orphan'], so the document's chat
    entries go with it. *)
Definition delete_document_row (document : DocumentRow) : M unit :=
  modify (fun w =>
    set_db
      {| documents :=
           List.filter (fun d => negb (doc_id d =? doc_id document))
             (documents (db w));
         llm_settings := llm_settings (db w);
         chat_history :=
           List.filter
             (fun c => negb (chat_document_id c =? doc_id document))
             (chat_history (db w)) |} w).

Definition document_detail (request : Request) (method : Method)
    (document_id : Z) : M (DetailBody * Z) :=
  document ← query_document document_id (request_user_id request);
  match document with
  | None => mret (DetailError "Document not found", 404)
  | Some document =>
      match method with
      | GET => mret (DetailDocument document, 200)
      | DELETE =>
          let file_path := doc_file_path document in
          let storage_name := doc_filename document in
          (* Best-effort cleanup of vector index for this document *)
          (if Py.is_empty storage_name then mret tt
           else delete_document_vector_index storage_name);;
          delete_document_row document;;
          (* Remove associated file *)
          (if negb (Py.is_empty file_path) && path_exists X file_path then
             try_except_OSError (os_remove H file_path) (mret tt)
           else mret tt);;
          mret (DetailMessage "Document deleted", 200)
      end
  end.

(** *** [chat_history] *)

Record HistoryJson : Type := mkHistoryJson {
  history_id : Z;
  history_question : string;
  history_answer : string;
  history_contexts : option (list ChunkJson)
}.

Inductive HistoryBody : Type :=
| HistoryError (error : string)
| HistoryList (history : list HistoryJson).

(** The rows are returned in [created_at] order, which is the order in
    which they were added. *)
Definition chat_history_ (request : Request) (document_id : Z)
    : M (HistoryBody * Z) :=
  document ← query_document document_id (request_user_id request);
  match document with
  | None => mret (HistoryError "Document not found", 404)
  | Some _ =>
      w ← get_world;
      let history_rows :=
        List.filter
          (fun h => (chat_document_id h =? document_id)
                    && (chat_user_id h =? request_user_id request))
          (chat_history (db w)) in
      let history :=
        map (fun h => {| history_id := chat_id h;
                         history_question := chat_question h;
                         history_answer := chat_answer h;
                         history_contexts := chat_context_json h |})
            history_rows in
      mret (HistoryList history, 200)
  end.

(** *** [update_llm_settings] *)

(** [LLMSettings.to_public_dict()] *)
Record PublicSettings : Type := mkPublicSettings {
  public_preferred_provider : string;
  public_model_name : string;
  openai_configured : bool;
  gemini_configured : bool;
  claude_configured : bool;
  groq_configured : bool
}.

Definition to_public_dict (self : LLMSettings) : PublicSettings :=
  {| public_preferred_provider := Py.or_str (preferred_provider self) "openai";
     public_model_name := Py.or_str (settings_model_name self) "gpt-4o-mini";
     openai_configured := Py.truthy (openai_api_key self);
     gemini_configured := Py.truthy (gemini_api_key self);
     claude_configured := Py.truthy (claude_api_key self);
     groq_configured := Py.truthy (groq_api_key self) |}.

Inductive SettingsBody : Type :=
| SettingsError (error : string)
| SettingsJson (llm : PublicSettings).

(** [if key_name in data: setattr(settings, field, value or None)], with
    [value = (data.get(key_name) or '').strip()]. *)
Definition updated_key (data : gmap string string) (key_name : string)
    (current : option string) : option string :=
  match data !! key_name with
  | Some raw => Py.or_none (Py.strip raw)
  | None => current
  end.

(** Lines 315-324: update API keys if provided (empty string clears). *)
Definition update_keys (data : gmap string string) (settings : LLMSettings)
    : LLMSettings :=
  {| preferred_provider := preferred_provider settings;
     settings_model_name := settings_model_name settings;
     openai_api_key := updated_key data "openai_api_key" (openai_api_key settings);
     gemini_api_key := updated_key data "gemini_api_key" (gemini_api_key settings);
     claude_api_key := updated_key data "claude_api_key" (claude_api_key settings);
     groq_api_key := updated_key data "groq_api_key" (groq_api_key settings) |}.

(** Lines 327-330: the supplied provider becomes the default, with the
    model name if one is supplied. *)
Definition update_default (provider model_name : string)
    (settings : LLMSettings) : LLMSettings :=
  {| preferred_provider := Some provider;
     settings_model_name :=
       if Py.is_empty model_name then settings_model_name settings
       else Some model_name;
     openai_api_key := openai_api_key settings;
     gemini_api_key := gemini_api_key settings;
     claude_api_key := claude_api_key settings;
     groq_api_key := groq_api_key settings |}.

(** The inner function [resolved_key] (lines 333-342). *)
Definition resolved_key (settings : LLMSettings) (provider : string)
    : option string :=
  if String.eqb provider "openai" then
    Py.or_ (openai_api_key settings) OPENAI_API_KEY
  else if String.eqb provider "gemini" then
    Py.or_ (gemini_api_key settings) GEMINI_API_KEY
  else if String.eqb provider "claude" then
    Py.or_ (claude_api_key settings) ANTHROPIC_API_KEY
  else if String.eqb provider "groq" then
    Py.or_ (groq_api_key settings) GROQ_API_KEY
  else None.

(** [db.commit()] with the session's [settings] object modified. *)
Definition commit_settings (user_id : Z) (settings : LLMSettings) : M unit :=
  modify (fun w =>
    set_db {| documents := documents (db w);
              llm_settings := <[user_id := settings]> (llm_settings (db w));
              chat_history := chat_history (db w) |} w).

(** [users] is the ids of the rows of the [users] table, which the
    handler only reads.  The changes to [settings] live in the session
    until [db.commit()]; a [return] before it drops them. *)
Definition update_llm_settings (users : list Z) (request : Request)
    : M (SettingsBody * Z) :=
  let data := request_json request in
  let provider := Py.or_none (Py.strip (Py.lower (Py.or_str (data !! "provider") ""))) in
  let model_name := Py.strip (Py.or_str (data !! "model_name") "") in
  if match provider with
     | Some p => negb (Py.mem p ["openai"; "gemini"; "claude"; "groq"])
     | None => false
     end
  then mret (SettingsError "Invalid LLM provider", 400)
  else if negb (existsb (Z.eqb (request_user_id request)) users) then
    mret (SettingsError "User not found", 404)
  else
    settings ← get_or_create_llm_settings (request_user_id request);
    (* Update API keys if provided (empty string clears) *)
    let settings := update_keys data settings in
    match provider with
    | Some p =>
        (* If a provider is supplied, treat this as an update of the default *)
        let settings := update_default p model_name settings in
        (* Ensure selected provider has a key configured (or env fallback) *)
        if negb (Py.truthy (resolved_key settings p)) then
          mret (SettingsError ("No API key configured for provider "
                               +:+ Py.title p), 400)
        else
          commit_settings (request_user_id request) settings;;
          mret (SettingsJson (to_public_dict settings), 200)
    | None =>
        commit_settings (request_user_id request) settings;;
        mret (SettingsJson (to_public_dict settings), 200)
    end.

End server.
End server.

(** ** [src/backend/auth.py]

    The functions below raise plain [Exception(message)] only; a result
    is either that message or a value. *)

Module auth.
Section auth.
Context (H : Services).

Definition decode_access_token (token : string)
    : string + (option Z * option string) :=
  match jwt_decode H token with
  | JwtPayload user_id email => inr (user_id, email)
  | ExpiredSignatureError => inl "Token has expired"
  | InvalidTokenError => inl "Invalid token"
  | JwtError message =>
      (* any other exception of the library is not caught here *)
      inl message
  end.

(** [auth_header] is [request.headers.get('Authorization')]. *)
Definition get_token_from_header (auth_header : option string)
    : string + string :=
  if negb (Py.truthy auth_header) then inl "No authorization header"
  else
    match Py.split (Py.or_str auth_header "") with
    | [scheme; token] =>
        if negb (String.eqb (Py.lower scheme) "bearer") then
          inl "Invalid authentication scheme"
        else inr token
    | _ =>
        (* unpacking raises [ValueError] *)
        inl "Invalid authorization header format"
    end.

(** The decorator: [f] is the protected handler, which reads
    [request.user_id] and the JSON body. *)
Definition token_required (f : server.Request -> M server.Response)
    (auth_header : option string) (json : gmap string string)
    : M server.Response :=
  match get_token_from_header auth_header with
  | inl e => mret (server.ErrorJson e, 401)
  | inr token =>
      match decode_access_token token with
      | inl e => mret (server.ErrorJson e, 401)
      | inr (user_id, email) =>
          (* [if not request.user_id] *)
          match user_id with
          | None => mret (server.ErrorJson "Invalid token payload", 401)
          | Some uid =>
              if uid =? 0 then
                mret (server.ErrorJson "Invalid token payload", 401)
              else f {| server.request_user_id := uid;
                        server.request_json := json |}
          end
      end
  end.

End auth.

(** [validate_password] looks at characters, not bytes: [len] counts
    code points, and [c.isupper()], [c.islower()] and [c.isdigit()] are
    those of Python's Unicode database.  A password is therefore its
    sequence of code points, and the three character classes are taken
    from the database, whatever it holds. *)
Record UnicodeData : Type := mkUnicodeData {
  char_isupper : Z -> bool;
  char_islower : Z -> bool;
  char_isdigit : Z -> bool
}.

Definition validate_password (U : UnicodeData) (password : list Z)
    : bool * string :=
  if (length password <? 8)%nat then
    (false, "Password must be at least 8 characters long")
  else if negb (existsb (char_isupper U) password) then
    (false, "Password must contain at least one uppercase letter")
  else if negb (existsb (char_islower U) password) then
    (false, "Password must contain at least one lowercase letter")
  else if negb (existsb (char_isdigit U) password) then
    (false, "Password must contain at least one number")
  else (true, "").

End auth.

(** ** Which external calls reach a remote backend *)

Definition is_network_call (ev : event) : bool :=
  match ev with
  | EmbedDocuments _ _ | SearchCollection _ _ | InvokeChatModel _ _ => true
  | _ => false
  end.

Definition is_split (ev : event) : bool :=
  match ev with Split _ _ _ => true | _ => false end.

Definition is_print (ev : event) : bool :=
  match ev with PrintLine _ => true | _ => false end.

(** ** A concrete environment, for running the code on examples *)

Module Scenario.

Fixpoint after_last (c : ascii) (s : string) : option string :=
  match s with
  | EmptyString => None
  | String a s' =>
      match after_last c s' with
      | Some r => Some r
      | None => if Ascii.eqb a c then Some s' else None
      end
  end.

Definition basename (p : string) : string := default p (after_last "/" p).

Definition splitext (p : string) : string * string :=
  match after_last "." p with
  | Some e =>
      (String.substring 0 (String.length p - String.length e - 1) p,
       "." +:+ e)
  | None => (p, "")
  end.

Definition lease : Document :=
  {| page_content := "The lease term is twelve months from the start date.";
     metadata := [("source", "uploads/lease.txt")] |}.

Definition scan_page : Document :=
  {| page_content := "Scanned page one.";
     metadata := [("source", "uploads/scan.pdf"); ("page", "0")] |}.

Definition reply : AIMessage :=
  {| content := "Twelve months.";
     message_str := "content='Twelve months.'" |}.

(** Two files are on disk; PyPDF rejects the scanned PDF, PyMuPDF reads
    it; documents are shorter than one chunk, so splitting returns them
    unchanged; every backend answers. *)
Definition base : Externals :=
  {| environ := ∅;
     path_exists := fun p =>
       Py.mem p ["uploads/lease.txt"; "uploads/scan.pdf"];
     path_isabs := fun p =>
       match p with String "/" _ => true | _ => false end;
     path_join := fun a b => a +:+ "/" +:+ b;
     path_basename := basename;
     path_splitext := splitext;
     importable := fun _ => true;
     run_loader := fun l p =>
       match l with
       | TextLoader => Ok [lease]
       | PyPDFLoader => Raise (LibraryError "EOF marker not found")
       | PyMuPDFLoader => Ok [scan_page]
       | UnstructuredWordDocumentLoader => Ok []
       end;
     split_documents := fun _ _ docs => docs;
     new_embeddings := fun _ => Ok ();
     chroma_open := fun _ _ => Ok ();
     embed_documents := fun _ texts =>
       Ok (map (fun t => [Z.of_nat (String.length t)]) texts);
     mmr_search := fun r entries _ => Ok (take (vs_k r) (map snd entries));
     new_chat_model := fun _ => Ok ();
     chat_invoke := fun _ _ => Ok reply |}.

Definition with_environ (env : gmap string string) (X : Externals) : Externals :=
  {| environ := env;
     path_exists := path_exists X; path_isabs := path_isabs X;
     path_join := path_join X; path_basename := path_basename X;
     path_splitext := path_splitext X; importable := importable X;
     run_loader := run_loader X; split_documents := split_documents X;
     new_embeddings := new_embeddings X; chroma_open := chroma_open X;
     embed_documents := embed_documents X; mmr_search := mmr_search X;
     new_chat_model := new_chat_model X; chat_invoke := chat_invoke X |}.

Definition with_loader (f : Loader -> string -> res (list Document))
    (X : Externals) : Externals :=
  {| environ := environ X;
     path_exists := path_exists X; path_isabs := path_isabs X;
     path_join := path_join X; path_basename := path_basename X;
     path_splitext := path_splitext X; importable := importable X;
     run_loader := f; split_documents := split_documents X;
     new_embeddings := new_embeddings X; chroma_open := chroma_open X;
     embed_documents := embed_documents X; mmr_search := mmr_search X;
     new_chat_model := new_chat_model X; chat_invoke := chat_invoke X |}.

Definition with_embed_documents
    (f : Embeddings -> list string -> res (list Vector))
    (X : Externals) : Externals :=
  {| environ := environ X;
     path_exists := path_exists X; path_isabs := path_isabs X;
     path_join := path_join X; path_basename := path_basename X;
     path_splitext := path_splitext X; importable := importable X;
     run_loader := run_loader X; split_documents := split_documents X;
     new_embeddings := new_embeddings X; chroma_open := chroma_open X;
     embed_documents := f; mmr_search := mmr_search X;
     new_chat_model := new_chat_model X; chat_invoke := chat_invoke X |}.

Definition with_importable (f : string -> bool) (X : Externals) : Externals :=
  {| environ := environ X;
     path_exists := path_exists X; path_isabs := path_isabs X;
     path_join := path_join X; path_basename := path_basename X;
     path_splitext := path_splitext X; importable := f;
     run_loader := run_loader X; split_documents := split_documents X;
     new_embeddings := new_embeddings X; chroma_open := chroma_open X;
     embed_documents := embed_documents X; mmr_search := mmr_search X;
     new_chat_model := new_chat_model X; chat_invoke := chat_invoke X |}.

(** The embedding backend is unreachable. *)
Definition embedding_down : Externals :=
  with_embed_documents (fun _ _ => Raise (LibraryError "Connection error.")) base.

(** Neither PDF strategy can read the file: PyPDF finds no EOF marker
    and the PyMuPDF binding is not installed. *)
Definition pdf_unreadable : Externals :=
  with_loader
    (fun l _ =>
       match l with
       | PyPDFLoader => Raise (LibraryError "EOF marker not found")
       | _ => Raise (ImportError "No module named 'fitz'")
       end) base.

(** The same, except that PyPDF itself is missing. *)
Definition pdf_unreadable' : Externals :=
  with_loader
    (fun l _ =>
       match l with
       | PyPDFLoader => Raise (ImportError "No module named 'pypdf'")
       | _ => Raise (ImportError "No module named 'fitz'")
       end) base.

Definition empty_db : Database :=
  {| documents := []; llm_settings := ∅; chat_history := [] |}.

(** Nothing persisted, nothing stored, nothing logged. *)
Definition fresh : World :=
  {| chroma := ∅; db := empty_db; trace := [] |}.

(** The lease has been indexed before. *)
Definition indexed : World :=
  {| chroma := {[ ("../data/chroma_db", "lease") := [([52], lease)] ]};
     db := empty_db; trace := [] |}.

Definition lease_row : DocumentRow :=
  {| doc_id := 1; doc_user_id := 7;
     doc_filename := "lease.txt"; doc_original_name := "lease.txt";
     doc_file_path := "uploads/lease.txt"; doc_file_size := 52;
     doc_indexed := true |}.

(** User 7 prefers Groq and has stored a Groq key, nothing else. *)
Definition groq_user : LLMSettings :=
  {| preferred_provider := Some "groq";
     settings_model_name := None;
     openai_api_key := None; gemini_api_key := None;
     claude_api_key := None; groq_api_key := Some "gsk-user" |}.

(** User 7 has uploaded the lease, and it has been indexed. *)
Definition uploaded : World :=
  {| chroma := chroma indexed;
     db := {| documents := [lease_row];
              llm_settings := {[ 7 := groq_user ]};
              chat_history := [] |};
     trace := [] |}.

(** The environment also configures a Groq key. *)
Definition groq_env : Externals :=
  with_environ {[ "GROQ_API_KEY" := "gsk-env" ]} base.

(** A second file with the base name [lease]: another user's sublease,
    as a PDF. *)
Definition sublease : Document :=
  {| page_content := "The sublease ends after three months.";
     metadata := [("source", "uploads/lease.pdf"); ("page", "0")] |}.

(** [lease.pdf] and [lease.txt] are both on disk and both load; an OpenAI
    key is configured in the environment; every backend answers. *)
Definition two_leases : Externals :=
  {| environ := {[ "OPENAI_API_KEY" := "sk-env" ]};
     path_exists := fun p =>
       Py.mem p ["uploads/lease.pdf"; "uploads/lease.txt"];
     path_isabs := path_isabs base;
     path_join := path_join base;
     path_basename := basename;
     path_splitext := splitext;
     importable := fun _ => true;
     run_loader := fun l p =>
       match l with
       | TextLoader => Ok [lease]
       | PyPDFLoader => Ok [sublease]
       | _ => Ok []
       end;
     split_documents := split_documents base;
     new_embeddings := new_embeddings base;
     chroma_open := chroma_open base;
     embed_documents := embed_documents base;
     mmr_search := mmr_search base;
     new_chat_model := new_chat_model base;
     chat_invoke := chat_invoke base |}.

(** The Unicode character classes on the code points used here: the
    ASCII letters and digits, [U+00C9] (E acute, upper case), [U+00E9]
    (e acute, lower case) and the Arabic-Indic digits
    [U+0660..U+0669]. *)
Definition unicode : auth.UnicodeData :=
  {| auth.char_isupper := fun c =>
       ((65 <=? c) && (c <=? 90)) || (c =? 201);
     auth.char_islower := fun c =>
       ((97 <=? c) && (c <=? 122)) || (c =? 233);
     auth.char_isdigit := fun c =>
       ((48 <=? c) && (c <=? 57)) || ((1632 <=? c) && (c <=? 1641)) |}.

(** [U+00C9 c o l i e r U+0663]: eight characters, ten bytes in UTF-8,
    no ASCII capital and no ASCII digit. *)
Definition accented_password : list Z :=
  [201; 99; 111; 108; 105; 101; 114; 1635].

End Scenario.

(** ** The Answer operation, as its caller runs it

    [chat_with_document] builds the chain ([rag.qa_chain()]) and invokes
    it on the question ([chain.invoke({'input': question})]). *)


(** ** Vocabulary of the statements below *)

Definition whitespace_only (s : string) : bool :=
  forallb Py.isspace (list_ascii_of_string s).

(** The provider identifiers [initialize_chat_model] has a branch for. *)
Definition recognised_providers : list string :=
  ["openai"; "gemini"; "claude"; "groq"].

(** The chat class of each recognised provider and the package it is
    imported from. *)
Definition client_of (provider : string) : option (ChatClass * string) :=
  if String.eqb provider "openai" then Some (ChatOpenAI, "langchain_openai")
  else if String.eqb provider "gemini" then
    Some (ChatGoogleGenerativeAI, "langchain_google_genai")
  else if String.eqb provider "claude" then
    Some (ChatAnthropic, "langchain_anthropic")
  else if String.eqb provider "groq" then Some (ChatGroq, "langchain_groq")
  else None.




(** The settings row a user has, or would be given. *)
Definition current_settings (w : World) (user_id : Z) : LLMSettings :=
  default server.new_settings (llm_settings (db w) !! user_id).

(** The user-stored key and the environment-configured key of a
    provider. *)
Definition stored_key (settings : LLMSettings) (provider : string)
    : option string :=
  if String.eqb provider "openai" then openai_api_key settings
  else if String.eqb provider "gemini" then gemini_api_key settings
  else if String.eqb provider "claude" then claude_api_key settings
  else if String.eqb provider "groq" then groq_api_key settings
  else None.

Definition environment_key (X : Externals) (provider : string)
    : option string :=
  if String.eqb provider "openai" then getenv X "OPENAI_API_KEY"
  else if String.eqb provider "gemini" then getenv X "GEMINI_API_KEY"
  else if String.eqb provider "claude" then getenv X "ANTHROPIC_API_KEY"
  else if String.eqb provider "groq" then getenv X "GROQ_API_KEY"
  else None.

(** The world after some more external calls have been logged. *)
Definition logged (evs : list event) (w : World) : World :=
  {| chroma := chroma w; db := db w; trace := trace w ++ evs |}.

(** A collection is Ready when opening it succeeds and it holds at least
    one entry; otherwise it is Stale/Absent. *)
Definition is_ready (X : Externals) (w : World) (dir name : string) : bool :=
  is_ok (chroma_open X dir name)
  && negb (length (retriever.entries_of w dir name) =? 0)%nat.

(** A computation that does nothing to the world but log external
    calls. *)
Definition only_logs {A} (m : M A) : Prop :=
  forall w, exists evs, (m w).2 = logged evs w.

(** A computation that leaves the database alone and, in the vector
    store, changes at most the collection under [key]. *)
Definition confined_to (key : string * string) {A} (m : M A) : Prop :=
  forall w,
    db (m w).2 = db w
    /\ forall k, k <> key -> chroma (m w).2 !! k = chroma w !! k.

Definition is_load (ev : event) : bool :=
  match ev with LoadFile _ _ => true | _ => false end.

(** The calls that chunk, open, embed into or write a collection. *)
Definition is_index_call (ev : event) : bool :=
  match ev with
  | Split _ _ _ | OpenCollection _ _ | EmbedDocuments _ _
  | PersistCollection _ _ _ => true
  | _ => false
  end.

(** Every stored settings row names a model. *)
Definition settings_have_model (w : World) : Prop :=
  forall uid s, llm_settings (db w) !! uid = Some s ->
                Py.truthy (settings_model_name s) = true.


(** ** Reasoning about runs *)

Lemma bind_run {A B} (m : M A) (f : A -> M B) (w : World) :
  (m ≫= f) w =
    match m w with
    | (Ok a, w') => f a w'
    | (Raise e, w') => (Raise e, w')
    end.
Proof. reflexivity. Qed.


(** Unfold the monad operations in the goal. *)
Ltac run :=
  repeat (unfold mbind, mret, M_bind, M_ret, raise, lift, log, print,
            get_world, modify, try_except, try_except_ImportError; cbn).

(** ** Whitespace trimming *)

Lemma lstrip_whitespace (s : string) :
  whitespace_only s = true -> Py.lstrip s = "".
Proof.
  induction s as [|c s IH]; [done|].
  unfold whitespace_only; cbn. intros [Hc Hs]%andb_prop.
  rewrite Hc. by apply IH.
Qed.

Lemma lstrip_head (s : string) :
  match Py.lstrip s with
  | EmptyString => whitespace_only s = true
  | String c _ => Py.isspace c = false
  end.
Proof.
  induction s as [|c s IH]; [done|]. cbn.
  destruct (Py.isspace c) eqn:Hc.
  - by destruct (Py.lstrip s).
  - done.
Qed.

Lemma rstrip_head (c : ascii) (s : string) :
  Py.isspace c = false -> Py.rstrip (String c s) <> "".
Proof.
  intros Hc. cbn. rewrite Hc, andb_false_r. done.
Qed.

(** Trimming leaves nothing exactly when every character is whitespace. *)
Lemma strip_empty_iff (s : string) :
  Py.strip s = "" <-> whitespace_only s = true.
Proof.
  unfold Py.strip. split.
  - pose proof (lstrip_head s) as H.
    destruct (Py.lstrip s) as [|c t]; [done|].
    intros Hr. by apply rstrip_head in Hr.
  - intros H. by rewrite lstrip_whitespace.
Qed.

(** ** The conversation chain *)

(** C3. When the question is empty once trimmed, the chain returns the
    empty answer with an empty context and leaves the world as it was:
    nothing is retrieved, the chat model is not invoked, nothing is
    logged. *)
Theorem empty_question_short_circuit
    (X : Externals) (chain : conversation_chain.Chain)
    (inputs : gmap string string) (w : World) :
  Py.strip (Py.or_str (inputs !! "input") "") = "" ->
  conversation_chain.invoke X chain inputs w
  = (Ok {| conversation_chain.answer := "";
           conversation_chain.context := [] |}, w).
Proof.
  intros Hq.
  unfold conversation_chain.invoke, conversation_chain._invoke.
  rewrite Hq. reflexivity.
Qed.

Lemma empty_question_short_circuit_witness :
  let chain := conversation_chain.create_retrieval_qa_chain
                 (mkChatHandle ChatOpenAI "gpt-4o-mini" (Some "sk-user"))
                 (Some (mkRetriever "../data/chroma_db" "lease"
                          OpenAIEmbeddings "mmr" 6 20)) in
  conversation_chain.invoke Scenario.base chain
    {[ "input" := "  " +:+ Py.nl ]} Scenario.indexed
  = (Ok {| conversation_chain.answer := "";
           conversation_chain.context := [] |}, Scenario.indexed).
Proof.
  apply (empty_question_short_circuit Scenario.base). vm_compute. reflexivity.
Defined.

(** C10. With no retriever and a question that is not empty once
    trimmed, the chain makes exactly one external call, the chat-model
    invocation, on the prompt built from an empty context block, and
    returns the model's text with an empty context list. *)
Theorem null_retriever_still_answers
    (X : Externals) (chat_model : ChatHandle)
    (inputs : gmap string string) (w : World) (result : AIMessage) :
  let question := Py.strip (Py.or_str (inputs !! "input") "") in
  let messages := conversation_chain.format_messages "" question in
  question <> "" ->
  chat_invoke X chat_model messages = Ok result ->
  conversation_chain.invoke X
    (conversation_chain.create_retrieval_qa_chain chat_model None) inputs w
  = (Ok {| conversation_chain.answer :=
             Py.or_str (Some (content result)) (message_str result);
           conversation_chain.context := [] |},
     add_event (InvokeChatModel chat_model messages) w).
Proof.
  intros question messages Hq Hinv.
  unfold conversation_chain.invoke, conversation_chain._invoke.
  fold question.
  destruct question as [|c q] eqn:E; [done|].
  run. unfold conversation_chain.chat_model_invoke. run.
  fold (conversation_chain.format_messages "" (String c q)).
  unfold messages in Hinv. rewrite Hinv. reflexivity.
Qed.

Lemma null_retriever_still_answers_witness :
  let chat_model := mkChatHandle ChatOpenAI "gpt-4o-mini" (Some "sk-user") in
  conversation_chain.invoke Scenario.base
    (conversation_chain.create_retrieval_qa_chain chat_model None)
    {[ "input" := " How long is the lease term? " ]} Scenario.fresh
  = (Ok {| conversation_chain.answer := "Twelve months.";
           conversation_chain.context := [] |},
     add_event
       (InvokeChatModel chat_model
          (conversation_chain.format_messages "" "How long is the lease term?"))
       Scenario.fresh).
Proof.
  intros chat_model.
  refine (null_retriever_still_answers Scenario.base chat_model
            {[ "input" := " How long is the lease term? " ]}
            Scenario.fresh Scenario.reply _ _).
  - vm_compute. discriminate.
  - reflexivity.
Defined.

(** ** The document loader *)

(** C5, as the code has it.  For a file that exists and whose extension
    is [.pdf], PyPDF is tried first.  If it returns, that is the result.
    If it raises anything at all, the exception is dropped (nothing is
    logged) and PyMuPDF is tried; whatever PyMuPDF does, its documents or
    its own exception, is the result. *)
Theorem pdf_loading_fallback
    (X : Externals) (self : data_loader.LoadDocuments) (w : World) :
  let file_path := data_loader._resolve_path X self in
  path_exists X file_path = true ->
  Py.lower (path_splitext X file_path).2 = ".pdf" ->
  data_loader.load_document X self w =
    match run_loader X PyPDFLoader file_path with
    | Ok docs => (Ok docs, add_event (LoadFile PyPDFLoader file_path) w)
    | Raise _ =>
        (run_loader X PyMuPDFLoader file_path,
         add_event (LoadFile PyMuPDFLoader file_path)
           (add_event (LoadFile PyPDFLoader file_path) w))
    end.
Proof.
  intros file_path Hex Hext.
  unfold data_loader.load_document. fold file_path.
  rewrite Hex, Hext. cbn [negb String.eqb Ascii.eqb Bool.eqb].
  unfold data_loader.load_with. run.
  destruct (run_loader X PyPDFLoader file_path) as [docs|e]; reflexivity.
Qed.

Lemma pdf_loading_fallback_witness :
  data_loader.load_document Scenario.base (data_loader.init "scan.pdf")
    Scenario.fresh
  = (Ok [Scenario.scan_page],
     add_event (LoadFile PyMuPDFLoader "uploads/scan.pdf")
       (add_event (LoadFile PyPDFLoader "uploads/scan.pdf") Scenario.fresh)).
Proof.
  refine (pdf_loading_fallback Scenario.base (data_loader.init "scan.pdf")
            Scenario.fresh _ _); reflexivity.
Defined.

(** C5, as stated, fails.  When both strategies fail, what surfaces is
    the second strategy's own exception (here an [ImportError], not a
    parse failure), the first failure leaves no record, and the handler
    does not look at the class of what it catches: a missing PyPDF
    package is treated exactly like an unreadable file. *)
Lemma pdf_fallback_is_a_silent_catch_all :
  let self := data_loader.init "scan.pdf" in
  let after :=
    add_event (LoadFile PyMuPDFLoader "uploads/scan.pdf")
      (add_event (LoadFile PyPDFLoader "uploads/scan.pdf") Scenario.fresh) in
  run_loader Scenario.pdf_unreadable PyPDFLoader "uploads/scan.pdf"
    = Raise (LibraryError "EOF marker not found")
  /\ data_loader.load_document Scenario.pdf_unreadable self Scenario.fresh
     = (Raise (ImportError "No module named 'fitz'"), after)
  /\ existsb is_print (trace after) = false
  /\ data_loader.load_document Scenario.pdf_unreadable' self Scenario.fresh
     = data_loader.load_document Scenario.pdf_unreadable self Scenario.fresh.
Proof. repeat split; vm_compute; reflexivity. Qed.

(** ** Embedding-provider selection *)




(** ** Chat-model construction *)

Lemma emitted_nothing {A} (m : M A) (w : World) (r : res A) :
  m w = (r, w) -> emitted m w = [].
Proof.
  intros H. unfold emitted. rewrite H. cbn. apply drop_all.
Qed.

(** What [construct] does: one constructor call, logged; its outcome is
    the outcome of the whole. *)
Lemma chat_construct_run (X : Externals) (cls : ChatClass)
    (self : chat_model.ChatModel) (w : World) :
  let h := mkChatHandle cls (chat_model.model_name self)
             (chat_model.api_key self) in
  chat_model.construct X cls self w =
    (match new_chat_model X h with Ok _ => Ok h | Raise e => Raise e end,
     add_event (NewChatModel h) w).
Proof.
  intros h. unfold chat_model.construct. run. fold h.
  destruct (new_chat_model X h); reflexivity.
Qed.

(** An import guarded by [except ImportError] either passes silently or
    raises the replacement error; it never touches the world. *)
Lemma guarded_import_run (X : Externals) (module : string) (e : exn) (w : World) :
  try_except_ImportError (chat_model.import X module) (raise e) w =
    (if importable X module then Ok () else Raise e, w).
Proof.
  unfold chat_model.import. run.
  destruct (importable X module); reflexivity.
Qed.

(** Every way [initialize_chat_model] can end: it raises before doing
    anything, or it is the constructor call of one chat class. *)
Lemma initialize_chat_model_cases (X : Externals)
    (self : chat_model.ChatModel) (w : World) :
  (exists e, chat_model.initialize_chat_model X self w = (Raise e, w))
  \/ (Py.mem (chat_model.provider self) recognised_providers = true
      /\ exists cls, chat_model.initialize_chat_model X self w
                     = chat_model.construct X cls self w).
Proof.
  unfold chat_model.initialize_chat_model, recognised_providers, Py.mem.
  cbn [existsb].
  destruct (String.eqb (chat_model.provider self) "openai").
  { rewrite bind_run. unfold chat_model.import.
    destruct (importable X "langchain_openai"); cbn; eauto. }
  destruct (String.eqb (chat_model.provider self) "gemini").
  { rewrite bind_run, guarded_import_run.
    destruct (importable X "langchain_google_genai"); cbn; eauto. }
  destruct (String.eqb (chat_model.provider self) "claude").
  { rewrite bind_run, guarded_import_run.
    destruct (importable X "langchain_anthropic"); cbn; eauto. }
  destruct (String.eqb (chat_model.provider self) "groq").
  { rewrite bind_run, guarded_import_run.
    destruct (importable X "langchain_groq"); cbn; eauto. }
  left. eexists. reflexivity.
Qed.

Lemma mem_recognised_false (p : string) :
  Py.mem p recognised_providers = false ->
  String.eqb p "openai" = false /\ String.eqb p "gemini" = false
  /\ String.eqb p "claude" = false /\ String.eqb p "groq" = false.
Proof.
  unfold Py.mem, recognised_providers. cbn [existsb].
  intros H.
  repeat match type of H with
         | (_ || _) = false => apply orb_false_elim in H; destruct H as [? H]
         end.
  auto.
Qed.

(** C7. [initialize_chat_model] has a branch for exactly four provider
    identifiers.  On any other identifier it raises [ValueError] without
    doing anything; on each of the four, once the provider's package
    imports, it is the constructor call of that provider's class.  For
    the three providers whose client package is
    imported under a guard it raises [RuntimeError], again without doing
    anything, when the package cannot be imported.  It returns a client
    only for one of the four identifiers, and the only external call it
    ever makes is the client's constructor: no call that reaches a
    backend. *)
Theorem chat_model_construction
    (X : Externals) (self : chat_model.ChatModel) (w : World) :
  let p := chat_model.provider self in
  let run := chat_model.initialize_chat_model X self w in
  (Py.mem p recognised_providers = false ->
     run = (Raise (ValueError ("Unsupported LLM provider: " +:+ p)), w))
  /\ (p = "gemini" -> importable X "langchain_google_genai" = false ->
        run = (Raise (RuntimeError
                 "Gemini provider selected but 'langchain-google-genai' is not installed."), w))
  /\ (p = "claude" -> importable X "langchain_anthropic" = false ->
        run = (Raise (RuntimeError
                 "Claude provider selected but 'langchain-anthropic' is not installed."), w))
  /\ (p = "groq" -> importable X "langchain_groq" = false ->
        run = (Raise (RuntimeError
                 "Groq provider selected but 'langchain-groq' is not installed."), w))
  /\ (forall cls package, client_of p = Some (cls, package) ->
        importable X package = true ->
        run = chat_model.construct X cls self w)
  /\ (forall h, run.1 = Ok h ->
        Py.mem p recognised_providers = true
        /\ chat_model_name h = chat_model.model_name self
        /\ chat_api_key h = chat_model.api_key self)
  /\ forallb (fun ev => negb (is_network_call ev))
       (emitted (chat_model.initialize_chat_model X self) w) = true.
Proof.
  intros p run. subst run.
  split; [|split; [|split; [|split; [|split; [|split]]]]].
  - intros (H1 & H2 & H3 & H4)%mem_recognised_false.
    unfold chat_model.initialize_chat_model. fold p.
    by rewrite H1, H2, H3, H4.
  - intros Hp Himp. unfold chat_model.initialize_chat_model. fold p.
    rewrite Hp. cbn [String.eqb Ascii.eqb Bool.eqb].
    rewrite bind_run, guarded_import_run, Himp. reflexivity.
  - intros Hp Himp. unfold chat_model.initialize_chat_model. fold p.
    rewrite Hp. cbn [String.eqb Ascii.eqb Bool.eqb].
    rewrite bind_run, guarded_import_run, Himp. reflexivity.
  - intros Hp Himp. unfold chat_model.initialize_chat_model. fold p.
    rewrite Hp. cbn [String.eqb Ascii.eqb Bool.eqb].
    rewrite bind_run, guarded_import_run, Himp. reflexivity.
  - intros cls package Hc Himp.
    unfold chat_model.initialize_chat_model. fold p.
    unfold client_of in Hc.
    repeat case_match; try discriminate;
      injection Hc as <- <-; rewrite bind_run;
      rewrite ?guarded_import_run; unfold chat_model.import;
      rewrite Himp; reflexivity.
  - intros h Hh.
    destruct (initialize_chat_model_cases X self w) as [[e He]|[Hm [cls Hc]]].
    + rewrite He in Hh. discriminate.
    + split; [exact Hm|].
      rewrite Hc, chat_construct_run in Hh. cbn in Hh.
      destruct (new_chat_model X _); [|discriminate].
      injection Hh as <-. done.
  - destruct (initialize_chat_model_cases X self w) as [[e He]|[_ [cls Hc]]].
    + by rewrite (emitted_nothing _ _ _ He).
    + unfold emitted. rewrite Hc, chat_construct_run. cbn.
      by rewrite drop_app_length.
Qed.

Lemma chat_model_construction_witness :
  chat_model.initialize_chat_model Scenario.base
    (chat_model.init (Some "Cohere") "command-r" (Some "key")) Scenario.fresh
  = (Raise (ValueError "Unsupported LLM provider: cohere"), Scenario.fresh)
  /\ chat_model.initialize_chat_model
       (Scenario.with_importable (fun _ => false) Scenario.base)
       (chat_model.init (Some "claude") "claude-3-5-sonnet-20241022" (Some "key"))
       Scenario.fresh
     = (Raise (RuntimeError
          "Claude provider selected but 'langchain-anthropic' is not installed."),
        Scenario.fresh).
Proof.
  split.
  - refine (proj1 (chat_model_construction Scenario.base
              (chat_model.init (Some "Cohere") "command-r" (Some "key"))
              Scenario.fresh) _).
    reflexivity.
  - refine (proj1 (proj2 (proj2 (chat_model_construction
              (Scenario.with_importable (fun _ => false) Scenario.base)
              (chat_model.init (Some "claude") "claude-3-5-sonnet-20241022"
                 (Some "key"))
              Scenario.fresh))) _ _); reflexivity.
Defined.

(** ** The vector collection: open, or build *)

(** The inner [try]: open the collection and insist that it is not
    empty.  It succeeds exactly on a Ready collection. *)
Lemma open_existing_run (X : Externals) (emb : Embeddings)
    (dir name : string) (w : World) :
  (vectorstore ← retriever.Chroma X emb dir name;
   n ← retriever.count vectorstore;
   if (n =? 0)%nat
   then raise (ValueError "Empty vector store, rebuilding index")
   else mret vectorstore) w
  = (if is_ready X w dir name then Ok (dir, name)
     else match chroma_open X dir name with
          | Raise e => Raise e
          | Ok _ => Raise (ValueError "Empty vector store, rebuilding index")
          end,
     logged [OpenCollection dir name] w).
Proof.
  unfold is_ready, retriever.Chroma, retriever.count. run.
  destruct (chroma_open X dir name) as [[]|e]; cbn; [|done].
  unfold retriever.entries_of. cbn.
  by destruct (length (default [] (chroma w !! (dir, name))) =? 0)%nat.
Qed.

Lemma from_documents_run (X : Externals) (splits : list Document)
    (emb : Embeddings) (dir name : string) (w : World) :
  let texts := map page_content splits in
  retriever.Chroma_from_documents X splits emb dir name w =
    match embed_documents X emb texts with
    | Raise e => (Raise e, logged [EmbedDocuments emb texts] w)
    | Ok vectors =>
        let entries := zip vectors splits in
        (Ok (dir, name),
         logged [EmbedDocuments emb texts; PersistCollection dir name entries]
           (set_chroma
              (<[(dir, name) := retriever.entries_of w dir name ++ entries]>
                 (chroma w)) w))
    end.
Proof.
  intros texts. unfold retriever.Chroma_from_documents. fold texts. run.
  destruct (embed_documents X emb texts) as [vectors|e]; [|done].
  cbn. unfold logged, set_chroma, add_event. cbn.
  by rewrite <- app_assoc.
Qed.

(** Every run of [get_retriever]. *)
Lemma get_retriever_run (X : Externals) (self : retriever.Retriever) (w : World) :
  let dir := retriever.persist_directory self in
  let name := retriever.collection_name self in
  let emb := retriever.embedding_ self in
  let docs := retriever.documents_ self in
  let splits := split_documents X 1200 150 docs in
  let texts := map page_content splits in
  let r := retriever.as_retriever (dir, name) emb "mmr" 6 20 in
  retriever.get_retriever X self w =
    if is_ready X w dir name then
      (Ok (Some r),
       logged [Split 1200 150 docs; OpenCollection dir name;
               PrintLine "Retriever created successfully!"] w)
    else
      match embed_documents X emb texts with
      | Ok vectors =>
          let entries := zip vectors splits in
          (Ok (Some r),
           logged [Split 1200 150 docs; OpenCollection dir name;
                   EmbedDocuments emb texts;
                   PersistCollection dir name entries;
                   PrintLine "Retriever created successfully!"]
             (set_chroma
                (<[(dir, name) := retriever.entries_of w dir name ++ entries]>
                   (chroma w)) w))
      | Raise e =>
          (Ok None,
           logged [Split 1200 150 docs; OpenCollection dir name;
                   EmbedDocuments emb texts;
                   PrintLine ("Retriever error: " +:+ exn_str e)] w)
      end.
Proof.
  intros dir name emb docs splits texts r.
  unfold retriever.get_retriever.
  fold dir name emb docs. fold splits.
  unfold try_except at 1. rewrite bind_run.
  unfold log at 1. rewrite bind_run.
  unfold try_except at 1.
  rewrite open_existing_run.
  destruct (is_ready X (add_event (Split 1200 150 docs) w) dir name) eqn:Hr.
  - assert (is_ready X w dir name = true) as -> by exact Hr.
    run. unfold logged, add_event; cbn. by rewrite <- !app_assoc.
  - assert (is_ready X w dir name = false) as -> by exact Hr.
    rewrite from_documents_run. fold texts.
    destruct (chroma_open X dir name) as [[]|e0];
      destruct (embed_documents X emb texts) as [vectors|e]; run;
      unfold logged, set_chroma, add_event; cbn;
      rewrite <- ?app_assoc; reflexivity.
Qed.

Lemma entries_of_rebuilt (w : World) (dir name : string)
    (entries : list (Vector * Document)) (evs : list event) :
  retriever.entries_of
    (logged evs
       (set_chroma
          (<[(dir, name) := retriever.entries_of w dir name ++ entries]>
             (chroma w)) w)) dir name
  = retriever.entries_of w dir name ++ entries.
Proof.
  unfold retriever.entries_of at 1. cbn. by rewrite lookup_insert_eq.
Qed.

(** C2, as the code has it.  [get_retriever] chunks the documents on
    every call, and only then tries to open the persisted collection by
    name.  On a Ready collection it stops there: nothing is embedded and
    the store is left as it is.  On a Stale/Absent one (the open failed,
    or it holds no entry) every chunk text is sent to the embedding
    backend and, when that answers, the (vector, chunk) pairs are added
    under the collection's name, one pair per chunk when the backend
    returned one vector per text; from then on the collection is Ready
    whenever it opens. *)
Theorem open_or_build_protocol
    (X : Externals) (self : retriever.Retriever) (w : World) :
  let dir := retriever.persist_directory self in
  let name := retriever.collection_name self in
  let emb := retriever.embedding_ self in
  let docs := retriever.documents_ self in
  let splits := split_documents X 1200 150 docs in
  let texts := map page_content splits in
  let r := retriever.as_retriever (dir, name) emb "mmr" 6 20 in
  (is_ready X w dir name = true ->
     retriever.get_retriever X self w
     = (Ok (Some r),
        logged [Split 1200 150 docs; OpenCollection dir name;
                PrintLine "Retriever created successfully!"] w))
  /\ (is_ready X w dir name = false ->
      forall vectors, embed_documents X emb texts = Ok vectors ->
        let entries := zip vectors splits in
        let w' :=
          logged [Split 1200 150 docs; OpenCollection dir name;
                  EmbedDocuments emb texts;
                  PersistCollection dir name entries;
                  PrintLine "Retriever created successfully!"]
            (set_chroma
               (<[(dir, name) := retriever.entries_of w dir name ++ entries]>
                  (chroma w)) w) in
        retriever.get_retriever X self w = (Ok (Some r), w')
        /\ (length vectors = length splits -> entries.*2 = splits)
        /\ (chroma_open X dir name = Ok () -> entries <> [] ->
              is_ready X w' dir name = true)).
Proof.
  intros dir name emb docs splits texts r.
  pose proof (get_retriever_run X self w) as Hrun. cbv zeta in Hrun.
  fold dir name emb docs splits texts r in Hrun.
  split.
  - intros Hr. by rewrite Hrun, Hr.
  - intros Hr vectors Hv entries w'. split; [|split].
    + by rewrite Hrun, Hr, Hv.
    + intros Hlen. apply snd_zip. lia.
    + intros Hopen Hne. unfold is_ready, w'.
      rewrite Hopen, entries_of_rebuilt. cbn.
      destruct (retriever.entries_of w dir name); destruct entries; done.
Qed.

Lemma open_or_build_protocol_witness :
  let self :=
    retriever.init [Scenario.lease] OpenAIEmbeddings "../data/chroma_db"
      (Some "lease") in
  let r := mkRetriever "../data/chroma_db" "lease" OpenAIEmbeddings "mmr" 6 20 in
  (* already indexed: reused *)
  retriever.get_retriever Scenario.base self Scenario.indexed
  = (Ok (Some r),
     logged [Split 1200 150 [Scenario.lease];
             OpenCollection "../data/chroma_db" "lease";
             PrintLine "Retriever created successfully!"] Scenario.indexed)
  (* nothing persisted yet: built *)
  /\ (retriever.get_retriever Scenario.base self Scenario.fresh).1 = Ok (Some r).
Proof.
  intros self r. split.
  - refine (proj1 (open_or_build_protocol Scenario.base self Scenario.indexed) _).
    reflexivity.
  - refine (f_equal fst
             (proj1 (proj2 (open_or_build_protocol Scenario.base self
                              Scenario.fresh) _ [[52]] _))); reflexivity.
Defined.

(** C2, as stated, fails.  The lease's collection is Ready, and the
    call still chunks the document, before it even tries to open the
    collection; only the embedding step is skipped. *)
Lemma ready_collection_is_still_chunked :
  let self :=
    retriever.init [Scenario.lease] OpenAIEmbeddings "../data/chroma_db"
      (Some "lease") in
  is_ready Scenario.base Scenario.indexed "../data/chroma_db" "lease" = true
  /\ emitted (retriever.get_retriever Scenario.base self) Scenario.indexed
     = [Split 1200 150 [Scenario.lease];
        OpenCollection "../data/chroma_db" "lease";
        PrintLine "Retriever created successfully!"]
  /\ existsb is_split
       (emitted (retriever.get_retriever Scenario.base self) Scenario.indexed)
     = true.
Proof. repeat split; vm_compute; reflexivity. Qed.

(** ** The Answer operation *)


(** [get_retriever] cannot raise. *)
Lemma get_retriever_total (X : Externals) (self : retriever.Retriever) (w : World) :
  exists o w', retriever.get_retriever X self w = (Ok o, w').
Proof.
  rewrite get_retriever_run.
  destruct (is_ready X w _ _); [eauto|].
  destruct (embed_documents X _ _); eauto.
Qed.






(** ** Credential resolution in [chat_with_document] *)

(** The source's key selection is, for each of the four providers, the
    stored key if it is set and non-empty, else the environment's. *)
Lemma resolve_api_key_precedence (X : Externals) (settings : LLMSettings)
    (provider : string) :
  Py.mem provider recognised_providers = true ->
  server.resolve_api_key X settings provider
  = Some (Py.or_ (stored_key settings provider) (environment_key X provider)).
Proof.
  unfold Py.mem, recognised_providers, server.resolve_api_key,
    stored_key, environment_key. cbn [existsb].
  destruct (String.eqb provider "openai"); [done|].
  destruct (String.eqb provider "gemini"); [done|].
  destruct (String.eqb provider "claude"); [done|].
  destruct (String.eqb provider "groq"); done.
Qed.

Lemma get_or_create_llm_settings_run (X : Externals) (user_id : Z) (w : World) :
  exists w1,
    server.get_or_create_llm_settings user_id w
    = (Ok (current_settings w user_id), w1)
    /\ trace w1 = trace w /\ chroma w1 = chroma w
    /\ documents (db w1) = documents (db w).
Proof.
  unfold server.get_or_create_llm_settings, current_settings. run.
  destruct (llm_settings (db w) !! user_id) as [settings|]; cbn; eauto.
Qed.

(** C4. In [chat_with_document], once the question, the document and a
    recognised provider are settled, the key handed to the pipeline is
    the user's stored key when it is set and non-empty, else the
    environment's key when that is set and non-empty; when neither is,
    the handler answers 400 [No API key configured ...] and has made no
    external call at all. *)
Theorem credential_resolution
    (X : Externals) (request : server.Request) (document_id : Z)
    (w : World) (document : DocumentRow) :
  let data := server.request_json request in
  let uid := server.request_user_id request in
  let question := Py.strip (Py.or_str (data !! "question") "") in
  let settings := current_settings w uid in
  let w1 := (server.get_or_create_llm_settings uid w).2 in
  let provider :=
    Py.lower
      (Py.or_str
         (Py.or_ (Py.or_none (Py.lower (Py.strip (Py.or_str (data !! "provider") ""))))
                 (preferred_provider settings))
         "openai") in
  let model_name :=
    server.resolve_model_name
      (Py.or_none (Py.strip (Py.or_str (data !! "model_name") "")))
      settings provider in
  let user_key := stored_key settings provider in
  let env_key := environment_key X provider in
  let answer_with key :=
    server.answer_question X request document_id document question
      {| rag_pipeline.uploaded_file := doc_filename document;
         rag_pipeline.vector_db_path := server.vector_store_db;
         rag_pipeline.llm_provider := provider;
         rag_pipeline.llm_model := model_name;
         rag_pipeline.llm_api_key := key |} w1 in
  let handled := server.chat_with_document X request document_id w in
  question <> "" ->
  (server.query_document document_id uid w).1 = Ok (Some document) ->
  Py.mem provider recognised_providers = true ->
  (Py.truthy user_key = true -> handled = answer_with user_key)
  /\ (Py.truthy user_key = false -> Py.truthy env_key = true ->
        handled = answer_with env_key)
  /\ (Py.truthy user_key = false -> Py.truthy env_key = false ->
        handled.1
        = Ok (server.ErrorJson
                ("No API key configured for provider " +:+ Py.title provider),
              400)
        /\ emitted (server.chat_with_document X request document_id) w = []).
Proof.
  intros data uid question settings w1 provider model_name user_key env_key
    answer_with handled Hq Hdoc Hp.
  destruct (get_or_create_llm_settings_run X uid w) as (w1' & Hs & Htr & _).
  assert (w1 = w1') as Hw1 by (unfold w1; by rewrite Hs).
  assert (handled =
          if negb (Py.truthy (Py.or_ user_key env_key)) then
            (Ok (server.ErrorJson
                   ("No API key configured for provider " +:+ Py.title provider),
                 400), w1)
          else answer_with (Py.or_ user_key env_key)) as Hhandled.
  { subst handled. unfold server.chat_with_document.
    fold data uid question.
    destruct question as [|c q] eqn:Eq; [done|]. cbn [Py.is_empty].
    rewrite bind_run.
    unfold server.query_document in Hdoc |- *. 
    revert Hdoc. run. intros [= ->].
    fold uid. rewrite Hs. cbn. fold settings provider.
    pose proof Hp as Hp'. unfold Py.mem, recognised_providers in Hp'.
    cbn [existsb] in Hp'. rewrite Hp'. cbn [negb].
    fold model_name.
    rewrite (resolve_api_key_precedence X settings provider Hp).
    fold user_key env_key. rewrite <- Hw1.
    destruct (Py.truthy (Py.or_ user_key env_key)); reflexivity. }
  split; [|split].
  - intros Hu. rewrite Hhandled. unfold Py.or_. rewrite Hu. cbn.
    by rewrite Hu.
  - intros Hu He. rewrite Hhandled. unfold Py.or_. rewrite Hu. cbn.
    by rewrite He.
  - intros Hu He.
    assert (handled =
            (Ok (server.ErrorJson
                   ("No API key configured for provider " +:+ Py.title provider),
                 400), w1)) as Hh.
    { rewrite Hhandled. unfold Py.or_. rewrite Hu. cbn. by rewrite He. }
    split; [by rewrite Hh|].
    unfold emitted. fold handled. rewrite Hh. cbn.
    rewrite Hw1, Htr. apply drop_all.
Qed.

Lemma credential_resolution_witness :
  let ask := {[ "question" := "How long is the lease term?" ]} in
  let stored := server.mkRequest 7 ask in
  let unset := server.mkRequest 7 (<[ "provider" := "Claude" ]> ask) in
  (* a stored key wins over the environment's *)
  server.chat_with_document Scenario.groq_env stored 1 Scenario.uploaded
  = server.answer_question Scenario.groq_env stored 1 Scenario.lease_row
      "How long is the lease term?"
      {| rag_pipeline.uploaded_file := "lease.txt";
         rag_pipeline.vector_db_path := "../data/chroma_db";
         rag_pipeline.llm_provider := "groq";
         rag_pipeline.llm_model := "llama3-70b-8192";
         rag_pipeline.llm_api_key := Some "gsk-user" |} Scenario.uploaded
  (* no key anywhere: refused before anything is called *)
  /\ (server.chat_with_document Scenario.groq_env unset 1 Scenario.uploaded).1
     = Ok (server.ErrorJson "No API key configured for provider Claude", 400)
  /\ emitted (server.chat_with_document Scenario.groq_env unset 1)
       Scenario.uploaded = [].
Proof.
  intros ask stored unset. split.
  - refine (proj1 (credential_resolution Scenario.groq_env stored 1
                     Scenario.uploaded Scenario.lease_row _ _ _) _).
    + vm_compute. discriminate.
    + reflexivity.
    + reflexivity.
    + reflexivity.
  - refine (proj2 (proj2 (credential_resolution Scenario.groq_env unset 1
                            Scenario.uploaded Scenario.lease_row _ _ _)) _ _).
    + vm_compute. discriminate.
    + reflexivity.
    + reflexivity.
    + reflexivity.
    + reflexivity.
Defined.

(** ** Chunking: the listing and the index *)

(** What the loader returns does not depend on the world it runs in. *)
Lemma load_document_result (X : Externals) (self : data_loader.LoadDocuments)
    (w w' : World) :
  (data_loader.load_document X self w).1
  = (data_loader.load_document X self w').1.
Proof.
  unfold data_loader.load_document.
  destruct (path_exists X _); cbn [negb]; [|done].
  repeat case_match; try done; unfold data_loader.load_with; run;
    repeat (match goal with
            | |- context [run_loader X ?l ?p] => destruct (run_loader X l p)
            end; cbn); done.
Qed.

Lemma enumerate_from_lookup {A} (l : list A) (i : Z) (n : nat) (p : Z * A) :
  Py.enumerate_from i l !! n = Some p ->
  p.1 = i + Z.of_nat n /\ l !! n = Some p.2.
Proof.
  revert i n. induction l as [|x l IH]; intros i n; [done|].
  destruct n as [|n]; cbn.
  - intros [= <-]. cbn. split; [lia|done].
  - intros H. apply IH in H as [H1 H2]. split; [lia|done].
Qed.

Lemma enumerate_from_snd {A} (l : list A) (i : Z) :
  (Py.enumerate_from i l).*2 = l.
Proof.
  revert i. induction l as [|x l IH]; intros i; cbn; [done|]. by rewrite IH.
Qed.

Lemma document_eta (d : Document) :
  mkDocument (page_content d) (metadata d) = d.
Proof. by destruct d. Qed.

(** The listing [document_chunks] serializes. *)
Lemma document_chunks_run (X : Externals) (request : server.Request)
    (document_id : Z) (w : World) (document : DocumentRow)
    (docs : list Document) :
  (server.query_document document_id (server.request_user_id request) w).1
    = Ok (Some document) ->
  (data_loader.load_document X (data_loader.init (doc_filename document)) w).1
    = Ok docs ->
  (server.document_chunks X request document_id w).1
  = Ok (server.ChunksJson
          (map (fun '(idx, doc_obj) =>
                  {| chunk_id := idx;
                     chunk_text := Py.or_str (Some (page_content doc_obj)) "";
                     chunk_metadata := metadata doc_obj |})
               (Py.enumerate (split_documents X 1200 150 docs))), 200).
Proof.
  intros Hdoc Hload.
  unfold server.document_chunks. rewrite bind_run.
  unfold server.query_document in Hdoc |- *. revert Hdoc. run.
  intros [= ->].
  destruct (data_loader.load_document X _ w) as [[docs'|e] w2];
    cbn in Hload; [|done].
  injection Hload as ->. reflexivity.
Qed.

(** Where the listing and the index do agree.  Both places that chunk
    a document call the splitter with [chunk_size=1200,
    chunk_overlap=150] on what the loader returned.  For a document that
    is found and loads, the listing's entries are numbered from 0 in
    order; when [get_retriever] builds the collection from the same
    loaded documents, the chunks it persists are the listing's chunks,
    text and metadata; and when the collection is already Ready, nothing
    of the document is stored: the entries stay what they were. *)
Lemma chunk_listing_and_index
    (X : Externals) (request : server.Request) (document_id : Z)
    (w : World) (document : DocumentRow) (docs : list Document) :
  (server.query_document document_id (server.request_user_id request) w).1
    = Ok (Some document) ->
  (data_loader.load_document X (data_loader.init (doc_filename document)) w).1
    = Ok docs ->
  exists chunks : list ChunkJson,
    (server.document_chunks X request document_id w).1
      = Ok (server.ChunksJson chunks, 200)
    /\ (forall (i : nat) c, chunks !! i = Some c -> chunk_id c = Z.of_nat i)
    /\ (forall emb dir name w2,
          let self := retriever.init docs emb dir name in
          let key_dir := retriever.persist_directory self in
          let key_name := retriever.collection_name self in
          let built := (retriever.get_retriever X self w2).2 in
          (is_ready X w2 key_dir key_name = true ->
             retriever.entries_of built key_dir key_name
             = retriever.entries_of w2 key_dir key_name)
          /\ (forall vectors,
                is_ready X w2 key_dir key_name = false ->
                embed_documents X emb (map chunk_text chunks) = Ok vectors ->
                length vectors = length chunks ->
                exists added,
                  retriever.entries_of built key_dir key_name
                  = retriever.entries_of w2 key_dir key_name ++ added
                  /\ added.*2
                     = map (fun c => mkDocument (chunk_text c)
                                       (chunk_metadata c))
                           chunks)).
Proof.
  intros Hdoc Hload.
  set (splits := split_documents X 1200 150 docs).
  set (to_json := fun '(idx, doc_obj) =>
         {| chunk_id := idx;
            chunk_text := Py.or_str (Some (page_content doc_obj)) "";
            chunk_metadata := metadata doc_obj |}).
  exists (map to_json (Py.enumerate splits)).
  assert (map (fun c => mkDocument (chunk_text c) (chunk_metadata c))
              (map to_json (Py.enumerate splits)) = splits) as Hback.
  { unfold Py.enumerate. generalize 0. induction splits as [|d l IH];
      intros i; cbn; [done|].
    f_equal; [by destruct d as [[|c s] m] | apply IH]. }
  assert (map chunk_text (map to_json (Py.enumerate splits))
          = map page_content splits) as Htexts.
  { rewrite <- Hback at 2. rewrite !map_map. done. }
  split; [|split].
  - by apply (document_chunks_run X request document_id w document docs).
  - intros i c Hc.
    rewrite list_lookup_fmap in Hc.
    destruct (Py.enumerate splits !! i) as [[idx d]|] eqn:Hi; [|done].
    cbn in Hc. injection Hc as <-. cbn.
    apply enumerate_from_lookup in Hi as [Hi _]. cbn in Hi. lia.
  - intros emb dir name w2 self key_dir key_name built.
    pose proof (get_retriever_run X self w2) as Hrun.
    cbv zeta in Hrun. fold key_dir key_name in Hrun.
    change (retriever.documents_ self) with docs in Hrun.
    change (retriever.embedding_ self) with emb in Hrun.
    fold splits in Hrun. subst built. split.
    + intros Hr. rewrite Hr in Hrun. by rewrite Hrun.
    + intros vectors Hr Hv Hlen. rewrite Htexts in Hv.
      rewrite Hr, Hv in Hrun.
      exists (zip vectors splits). split.
      * rewrite Hrun. cbn [snd]. apply entries_of_rebuilt.
      * rewrite Hback. apply snd_zip.
        rewrite Hlen, !length_map. unfold Py.enumerate.
        by rewrite <- (length_fmap snd (Py.enumerate_from 0 splits)),
          enumerate_from_snd.
Qed.

(** C8, at the input where the code departs from it.  User 8 uploads
    [lease.pdf], then user 7 uploads [lease.txt].  The collection name is
    the storage name without its extension, so both documents share the
    collection [lease]: the second upload finds it Ready and stores
    nothing of its own text, although the document is marked indexed.
    The chunk listing of user 7's document then shows the text of
    [lease.txt], while a question about that same document retrieves,
    and returns as context for highlighting, the chunk of [lease.pdf]:
    no returned context is a chunk of the listing. *)
Theorem listing_differs_from_retrieved_context :
  let X := Scenario.two_leases in
  let w1 :=
    (server.upload_document X 8 "lease.pdf" "lease.pdf" "uploads/lease.pdf"
       2048 Scenario.fresh).2 in
  let w2 :=
    (server.upload_document X 7 "lease.txt" "lease.txt" "uploads/lease.txt"
       52 w1).2 in
  let request :=
    server.mkRequest 7 {[ "question" := "How long is the lease term?" ]} in
  let listed :=
    [mkChunkJson 0 (page_content Scenario.lease) (metadata Scenario.lease)] in
  let retrieved :=
    [mkChunkJson 0 (page_content Scenario.sublease)
       (metadata Scenario.sublease)] in
  rag_pipeline.collection_name_of X "lease.pdf"
    = rag_pipeline.collection_name_of X "lease.txt"
  /\ documents (db w2)
     = [mkDocumentRow 1 8 "lease.pdf" "lease.pdf" "uploads/lease.pdf" 2048 true;
        mkDocumentRow 2 7 "lease.txt" "lease.txt" "uploads/lease.txt" 52 true]
  /\ retriever.entries_of w2 "../data/chroma_db" "lease"
     = [([37], Scenario.sublease)]
  /\ (server.document_chunks X request 2 w2).1
     = Ok (server.ChunksJson listed, 200)
  /\ (server.chat_with_document X request 2 w2).1
     = Ok (server.ChatJson 1 "Twelve months." retrieved, 200)
  /\ Forall (fun c => chunk_text c ∉ map chunk_text listed) retrieved.
Proof.
  repeat split; try (vm_compute; reflexivity).
  apply Forall_singleton. cbn. intros [=]%list_elem_of_singleton.
Qed.

(** ** Indexing at upload time *)

Lemma add_document_run (X : Externals) (user_id : Z)
    (filename original_name file_path : string) (file_size : Z) (w : World) :
  exists row w1,
    server.add_document user_id filename original_name file_path file_size w
    = (Ok row, w1)
    /\ row = mkDocumentRow (server.next_id (map doc_id (documents (db w))))
               user_id filename original_name file_path file_size false
    /\ trace w1 = trace w /\ chroma w1 = chroma w.
Proof. unfold server.add_document. run. eauto 10. Qed.

(** The upload answers 201 with the stored record whatever indexing
    does; only the [indexed] flag depends on it. *)
Lemma upload_always_succeeds (X : Externals) (user_id : Z)
    (storage_name original_name file_path : string) (file_size : Z)
    (w : World) :
  exists indexed w',
    server.upload_document X user_id storage_name original_name file_path
      file_size w
    = (Ok (server.DocumentJson
             (mkDocumentRow (server.next_id (map doc_id (documents (db w))))
                user_id storage_name original_name file_path file_size
                indexed), 201), w').
Proof.
  unfold server.upload_document. rewrite bind_run.
  destruct (add_document_run X user_id storage_name original_name file_path
              file_size w) as (row & w1 & -> & -> & _).
  rewrite bind_run. unfold try_except. rewrite bind_run.
  destruct (rag_pipeline.pipeline X _ w1) as [[o|e] w2].
  - exists true. eexists. reflexivity.
  - exists false. eexists. reflexivity.
Qed.

(** A document that fails to load is left unindexed. *)
Lemma upload_load_failure_not_indexed (X : Externals) (user_id : Z)
    (storage_name original_name file_path : string) (file_size : Z)
    (w : World) (e : exn) :
  (data_loader.load_document X (data_loader.init storage_name) w).1 = Raise e ->
  exists d,
    (server.upload_document X user_id storage_name original_name file_path
       file_size w).1 = Ok (server.DocumentJson d, 201)
    /\ doc_indexed d = false.
Proof.
  intros Hload.
  unfold server.upload_document. rewrite bind_run.
  destruct (add_document_run X user_id storage_name original_name file_path
              file_size w) as (row & w1 & -> & -> & _).
  rewrite bind_run. unfold try_except. rewrite bind_run.
  unfold rag_pipeline.pipeline. rewrite bind_run.
  rewrite (load_document_result X _ w w1) in Hload.
  destruct (data_loader.load_document X _ w1) as [r w2].
  cbn in Hload.
  subst r. eexists. split; reflexivity.
Qed.

(** C9, at the input where the code departs from it.  The lease loads,
    the embedding backend is unreachable, so no index is built and
    nothing is persisted; [get_retriever] absorbs the error, the pipeline
    returns normally, and the upload handler records the document as
    indexed. *)
Theorem failed_index_build_is_marked_indexed :
  let hf := HuggingFaceEmbeddings "sentence-transformers/all-MiniLM-L6-v2" in
  let uploaded :=
    server.upload_document Scenario.embedding_down 7 "lease.txt" "lease.txt"
      "uploads/lease.txt" 52 Scenario.fresh in
  let row := mkDocumentRow 1 7 "lease.txt" "lease.txt" "uploads/lease.txt" 52
               true in
  embed_documents Scenario.embedding_down hf [page_content Scenario.lease]
    = Raise (LibraryError "Connection error.")
  /\ uploaded.1 = Ok (server.DocumentJson row, 201)
  /\ documents (db uploaded.2) = [row]
  /\ retriever.entries_of uploaded.2 "../data/chroma_db" "lease" = []
  /\ trace uploaded.2
     = [LoadFile TextLoader "uploads/lease.txt";
        NewEmbeddings hf;
        Split 1200 150 [Scenario.lease];
        OpenCollection "../data/chroma_db" "lease";
        EmbedDocuments hf [page_content Scenario.lease];
        PrintLine "Retriever error: Connection error.";
        PrintLine "Retriever Created Successfully!"].
Proof. repeat split; vm_compute; reflexivity. Qed.

(** ** What a run leaves untouched *)

Lemma logged_nil (w : World) : logged [] w = w.
Proof. destruct w. unfold logged. cbn. by rewrite app_nil_r. Qed.

Lemma logged_logged (evs evs' : list event) (w : World) :
  logged evs' (logged evs w) = logged (evs ++ evs') w.
Proof. unfold logged. cbn. by rewrite app_assoc. Qed.

Lemma only_logs_ret {A} (a : A) : only_logs (mret a : M A).
Proof. intros w. exists []. by rewrite logged_nil. Qed.

Lemma only_logs_raise {A} (e : exn) : only_logs (raise e : M A).
Proof. intros w. exists []. by rewrite logged_nil. Qed.

Lemma only_logs_lift {A} (r : res A) : only_logs (lift r).
Proof. intros w. exists []. by rewrite logged_nil. Qed.

Lemma only_logs_log (ev : event) : only_logs (log ev).
Proof. intros w. by exists [ev]. Qed.

Lemma only_logs_get_world : only_logs get_world.
Proof. intros w. exists []. by rewrite logged_nil. Qed.

Lemma only_logs_bind {A B} (m : M A) (f : A -> M B) :
  only_logs m -> (forall a, only_logs (f a)) -> only_logs (m ≫= f).
Proof.
  intros Hm Hf w. rewrite bind_run.
  destruct (Hm w) as [evs Hw]. destruct (m w) as [[a|e] w1]; cbn in Hw; subst w1.
  - destruct (Hf a (logged evs w)) as [evs' Hw']. exists (evs ++ evs').
    by rewrite Hw', logged_logged.
  - by exists evs.
Qed.

Lemma only_logs_try_except {A} (m : M A) (h : exn -> M A) :
  only_logs m -> (forall e, only_logs (h e)) -> only_logs (try_except m h).
Proof.
  intros Hm Hh w. unfold try_except.
  destruct (Hm w) as [evs Hw]. destruct (m w) as [[a|e] w1]; cbn in Hw; subst w1.
  - by exists evs.
  - destruct (Hh e (logged evs w)) as [evs' Hw']. exists (evs ++ evs').
    by rewrite Hw', logged_logged.
Qed.

Lemma only_logs_try_except_ImportError {A} (m h : M A) :
  only_logs m -> only_logs h -> only_logs (try_except_ImportError m h).
Proof.
  intros Hm Hh w. unfold try_except_ImportError.
  destruct (Hm w) as [evs Hw]. destruct (m w) as [[a|e] w1]; cbn in Hw; subst w1.
  - by exists evs.
  - destruct (is_ImportError e); [|by exists evs].
    destruct (Hh (logged evs w)) as [evs' Hw']. exists (evs ++ evs').
    by rewrite Hw', logged_logged.
Qed.

Lemma only_logs_confined {A} (m : M A) (key : string * string) :
  only_logs m -> confined_to key m.
Proof. intros Hm w. destruct (Hm w) as [evs ->]. done. Qed.

Lemma confined_bind {A B} (key : string * string) (m : M A) (f : A -> M B) :
  confined_to key m -> (forall a, confined_to key (f a)) ->
  confined_to key (m ≫= f).
Proof.
  intros Hm Hf w. rewrite bind_run.
  destruct (Hm w) as [Hdb Hch]. destruct (m w) as [[a|e] w1]; cbn in *.
  - destruct (Hf a w1) as [Hdb' Hch']. split; [congruence|].
    intros k Hk. rewrite Hch', Hch; done.
  - done.
Qed.

Lemma confined_try_except {A} (key : string * string) (m : M A)
    (h : exn -> M A) :
  confined_to key m -> (forall e, confined_to key (h e)) ->
  confined_to key (try_except m h).
Proof.
  intros Hm Hh w. unfold try_except.
  destruct (Hm w) as [Hdb Hch]. destruct (m w) as [[a|e] w1]; cbn in *.
  - done.
  - destruct (Hh e w1) as [Hdb' Hch']. split; [congruence|].
    intros k Hk. rewrite Hch', Hch; done.
Qed.

(** Solve [only_logs] goals by following the structure of the code. *)
Ltac only_logs :=
  repeat first
    [ progress intros
    | match goal with
      | |- only_logs (mret _) => apply only_logs_ret
      | |- only_logs (raise _) => apply only_logs_raise
      | |- only_logs (lift _) => apply only_logs_lift
      | |- only_logs (log _) => apply only_logs_log
      | |- only_logs get_world => apply only_logs_get_world
      | |- only_logs (try_except_ImportError _ _) =>
          apply only_logs_try_except_ImportError
      | |- only_logs (try_except _ _) => apply only_logs_try_except
      | |- only_logs (_ ≫= _) => apply only_logs_bind
      | |- only_logs (if ?b then _ else _) => destruct b
      | |- only_logs (match ?o with Some _ => _ | None => _ end) => destruct o
      end ].

Lemma load_document_only_logs (X : Externals)
    (self : data_loader.LoadDocuments) :
  only_logs (data_loader.load_document X self).
Proof.
  unfold data_loader.load_document, data_loader.load_with. only_logs.
Qed.

Lemma create_embeddings_only_logs (X : Externals)
    (self : embedding.EmbeddingsCreator) :
  only_logs (embedding.create_embeddings X self).
Proof.
  unfold embedding.create_embeddings, embedding.construct. only_logs.
Qed.

Lemma initialize_chat_model_only_logs (X : Externals)
    (self : chat_model.ChatModel) :
  only_logs (chat_model.initialize_chat_model X self).
Proof.
  unfold chat_model.initialize_chat_model, chat_model.construct,
    chat_model.import, print. only_logs.
Qed.

Lemma invoke_only_logs (X : Externals) (chain : conversation_chain.Chain)
    (inputs : gmap string string) :
  only_logs (conversation_chain.invoke X chain inputs).
Proof.
  unfold conversation_chain.invoke, conversation_chain._invoke,
    conversation_chain.chat_model_invoke, retriever.get_relevant_documents.
  only_logs.
Qed.

Lemma is_ready_logged (X : Externals) (evs : list event) (w : World)
    (dir name : string) :
  is_ready X (logged evs w) dir name = is_ready X w dir name.
Proof. reflexivity. Qed.

(** ** More on the vector collection *)

(** [get_retriever] leaves the database alone, changes no collection but
    its own, and when it gives up (returns [None]) it has persisted
    nothing at all. *)
Theorem get_retriever_confined
    (X : Externals) (self : retriever.Retriever) (w : World) :
  let key := (retriever.persist_directory self, retriever.collection_name self) in
  let w' := (retriever.get_retriever X self w).2 in
  db w' = db w
  /\ (forall k, k <> key -> chroma w' !! k = chroma w !! k)
  /\ ((retriever.get_retriever X self w).1 = Ok None -> chroma w' = chroma w).
Proof.
  intros key w'. subst w'. rewrite get_retriever_run.
  destruct (is_ready X w _ _); [done|].
  destruct (embed_documents X _ _) as [vectors|e]; [|done].
  cbn. split; [done|]. split; [|done].
  intros k Hk. by rewrite lookup_insert_ne.
Qed.

Lemma get_retriever_confined_witness :
  let self :=
    retriever.init [Scenario.scan_page] OpenAIEmbeddings "../data/chroma_db"
      (Some "scan") in
  let w' := (retriever.get_retriever Scenario.base self Scenario.indexed).2 in
  chroma w' !! ("../data/chroma_db", "lease")
  = chroma Scenario.indexed !! ("../data/chroma_db", "lease")
  /\ chroma
       (retriever.get_retriever Scenario.embedding_down self Scenario.indexed).2
     = chroma Scenario.indexed.
Proof.
  intros self w'. split.
  - refine (proj1 (proj2 (get_retriever_confined Scenario.base self
                            Scenario.indexed)) _ _).
    discriminate.
  - refine (proj2 (proj2 (get_retriever_confined Scenario.embedding_down self
                            Scenario.indexed)) _).
    reflexivity.
Defined.

(** Whether a collection is rebuilt is decided by its name and its entry
    count, never by the documents at hand.  Once one document has been
    indexed under a name, [get_retriever] for any other documents under
    the same name chunks them and then reuses what is stored: their text
    is neither embedded nor persisted, and the retriever it returns
    searches the first document's entries. *)
Theorem collection_is_keyed_by_name_only
    (X : Externals) (first second : retriever.Retriever) (w : World)
    (vectors : list Vector) :
  let dir := retriever.persist_directory first in
  let name := retriever.collection_name first in
  let splits := split_documents X 1200 150 (retriever.documents_ first) in
  let w1 := (retriever.get_retriever X first w).2 in
  retriever.persist_directory second = dir ->
  retriever.collection_name second = name ->
  is_ready X w dir name = false ->
  chroma_open X dir name = Ok () ->
  embed_documents X (retriever.embedding_ first) (map page_content splits)
    = Ok vectors ->
  zip vectors splits <> [] ->
  retriever.get_retriever X second w1
  = (Ok (Some (retriever.as_retriever (dir, name)
                 (retriever.embedding_ second) "mmr" 6 20)),
     logged [Split 1200 150 (retriever.documents_ second);
             OpenCollection dir name;
             PrintLine "Retriever created successfully!"] w1)
  /\ retriever.entries_of w1 dir name
     = retriever.entries_of w dir name ++ zip vectors splits.
Proof.
  intros dir name splits w1 Hdir Hname Hstale Hopen Hembed Hne.
  pose proof (get_retriever_run X first w) as Hfirst. cbv zeta in Hfirst.
  fold dir name splits in Hfirst. rewrite Hstale, Hembed in Hfirst.
  assert (retriever.entries_of w1 dir name
          = retriever.entries_of w dir name ++ zip vectors splits) as Hentries.
  { unfold w1. rewrite Hfirst. cbn [snd]. apply entries_of_rebuilt. }
  split; [|exact Hentries].
  rewrite get_retriever_run, Hdir, Hname.
  assert (is_ready X w1 dir name = true) as ->; [|done].
  unfold is_ready. rewrite Hopen, Hentries. cbn.
  destruct (retriever.entries_of w dir name);
    destruct (zip vectors splits); done.
Qed.

Lemma collection_is_keyed_by_name_only_witness :
  let first :=
    retriever.init [Scenario.lease] OpenAIEmbeddings "../data/chroma_db"
      (Some "lease") in
  let second :=
    retriever.init [Scenario.scan_page] OpenAIEmbeddings "../data/chroma_db"
      (Some "lease") in
  let w1 := (retriever.get_retriever Scenario.base first Scenario.fresh).2 in
  emitted (retriever.get_retriever Scenario.base second) w1
  = [Split 1200 150 [Scenario.scan_page];
     OpenCollection "../data/chroma_db" "lease";
     PrintLine "Retriever created successfully!"]
  /\ retriever.entries_of w1 "../data/chroma_db" "lease" = [([52], Scenario.lease)].
Proof.
  intros first second w1.
  destruct (collection_is_keyed_by_name_only Scenario.base first second
              Scenario.fresh [[52]] eq_refl eq_refl eq_refl eq_refl eq_refl)
    as [Hrun Hentries]; [discriminate|].
  split.
  - unfold emitted, w1. rewrite Hrun. cbn [snd logged trace].
    by rewrite drop_app_length.
  - exact Hentries.
Defined.

(** ** More on loading and on the pipeline *)

Lemma add_event_twice (a b : event) (w : World) :
  add_event b (add_event a w) = logged [a; b] w.
Proof. unfold add_event, logged. cbn. by rewrite <- app_assoc. Qed.

Lemma load_document_shape
    (X : Externals) (self : data_loader.LoadDocuments) (w : World) :
  exists evs,
    (data_loader.load_document X self w).2 = logged evs w
    /\ (length evs <= 2)%nat
    /\ Forall (fun ev => exists l,
                 ev = LoadFile l (data_loader._resolve_path X self)) evs
    /\ (path_exists X (data_loader._resolve_path X self) = false -> evs = []).
Proof.
  unfold data_loader.load_document.
  destruct (path_exists X _) eqn:Hex; cbn [negb].
  2:{ exists []. rewrite logged_nil. cbn. auto. }
  set (path := data_loader._resolve_path X self).
  assert (forall l,
            exists evs, add_event (LoadFile l path) w = logged evs w
              /\ (length evs <= 2)%nat
              /\ Forall (fun ev => exists l, ev = LoadFile l path) evs
              /\ (true = false -> evs = [])) as Hone.
  { intros l. exists [LoadFile l path]. cbn. repeat split; eauto; lia. }
  repeat case_match; unfold data_loader.load_with; run.
  - destruct (run_loader X PyPDFLoader path); cbn [snd].
    + apply Hone.
    + exists [LoadFile PyPDFLoader path; LoadFile PyMuPDFLoader path].
      rewrite add_event_twice. cbn.
      repeat split; eauto; try lia; try discriminate.
  - destruct (run_loader X UnstructuredWordDocumentLoader path); apply Hone.
  - destruct (run_loader X TextLoader path); apply Hone.
  - exists []. rewrite logged_nil. cbn. repeat split; auto; lia.
Qed.

(** [load_document] reads and nothing else: whatever the file and
    whatever the loaders do, it leaves the store and the database as
    they are, and the only external calls it makes are loader calls on
    the resolved path, two at most (none for a missing file or an
    unsupported extension). *)
Theorem load_document_touches_one_path
    (X : Externals) (self : data_loader.LoadDocuments) (w : World) :
  exists evs,
    (data_loader.load_document X self w).2 = logged evs w
    /\ (length evs <= 2)%nat
    /\ Forall (fun ev => exists l,
                 ev = LoadFile l (data_loader._resolve_path X self)) evs
    /\ (path_exists X (data_loader._resolve_path X self) = false -> evs = []).
Proof. apply load_document_shape. Qed.

Lemma load_document_touches_one_path_witness :
  (data_loader.load_document Scenario.base (data_loader.init "ghost.txt")
     Scenario.indexed).2 = Scenario.indexed.
Proof.
  destruct (load_document_touches_one_path Scenario.base
              (data_loader.init "ghost.txt") Scenario.indexed)
    as (evs & Hw & _ & _ & Hnone).
  rewrite Hw, (Hnone eq_refl). apply logged_nil.
Defined.

Lemma create_embeddings_run (X : Externals) (self : embedding.EmbeddingsCreator) :
  exists e, forall w,
    embedding.create_embeddings X self w
    = (match new_embeddings X e with Ok _ => Ok e | Raise err => Raise err end,
       logged [NewEmbeddings e] w).
Proof.
  unfold embedding.create_embeddings, embedding.construct.
  destruct (bool_decide _);
    [exists OpenAIEmbeddings
    |exists (HuggingFaceEmbeddings
               (default "sentence-transformers/all-MiniLM-L6-v2"
                        (getenv X "LEGAL_EAGLE_HF_EMBEDDING_MODEL")))];
    intros w; run; destruct (new_embeddings X _); reflexivity.
Qed.

Lemma emitted_of_world {A} (m : M A) (w w' : World) (evs : list event) :
  (m w).2 = w' -> trace w' = trace w ++ evs -> emitted m w = evs.
Proof.
  intros Hw Ht. unfold emitted. rewrite Hw, Ht. apply drop_app_length.
Qed.

Lemma last_logged (evs : list event) (ev : event) (w : World) :
  last (trace (add_event ev (logged evs w))) = Some ev.
Proof. cbn. apply last_snoc. Qed.

(** [pipeline] can fail in two ways only, and both come before anything
    is chunked, opened, embedded or written: the document does not load,
    or the embeddings object cannot be constructed.  Past that point it
    never raises.  It returns [None] exactly when the collection was not
    Ready and the embedding call failed, and it prints
    [Retriever Created Successfully!] last in either case.  The database
    is never touched. *)
Theorem pipeline_outcome
    (X : Externals) (rag : rag_pipeline.RAGPipeline) (w : World) :
  let file := rag_pipeline.uploaded_file rag in
  let dir := rag_pipeline.vector_db_path rag in
  let name := rag_pipeline.collection_name_of X file in
  let loaded := (data_loader.load_document X (data_loader.init file) w).1 in
  let made := (embedding.create_embeddings X (embedding.init X) w).1 in
  let run := rag_pipeline.pipeline X rag w in
  let quiet :=
    chroma run.2 = chroma w
    /\ existsb is_index_call (emitted (rag_pipeline.pipeline X rag) w) = false in
  db run.2 = db w
  /\ match loaded, made with
     | Raise e, _ => run.1 = Raise e /\ quiet
     | Ok _, Raise e => run.1 = Raise e /\ quiet
     | Ok docs, Ok emb =>
         let texts := map page_content (split_documents X 1200 150 docs) in
         run.1 = Ok (if is_ready X w dir name
                        || is_ok (embed_documents X emb texts)
                     then Some (retriever.as_retriever (dir, name) emb "mmr" 6 20)
                     else None)
         /\ last (trace run.2) = Some (PrintLine "Retriever Created Successfully!")
     end.
Proof.
  intros file dir name loaded made run quiet.
  subst run quiet loaded made.
  destruct (load_document_shape X (data_loader.init file) w)
    as (evs1 & Hw1 & _ & Hloads & _).
  destruct (create_embeddings_run X (embedding.init X)) as [e He].
  assert (forallb (fun ev => negb (is_index_call ev)) evs1 = true) as Hquiet1.
  { apply forallb_forall. intros ev Hin.
    rewrite Forall_forall in Hloads.
    destruct (Hloads ev) as [l ->]; [by apply list_elem_of_In|done]. }
  assert (forall evs, forallb (fun ev => negb (is_index_call ev)) evs = true ->
                      existsb is_index_call evs = false) as Hnone.
  { induction evs as [|ev evs IH]; [done|]. cbn.
    intros [H1 H2]%andb_prop. apply negb_true_iff in H1. rewrite H1. auto. }
  destruct (data_loader.load_document X _ w) as [[docs|err] w1] eqn:Hload;
    cbn [fst snd] in *; subst w1.
  2:{ assert (rag_pipeline.pipeline X rag w = (Raise err, logged evs1 w)) as Hp.
      { unfold rag_pipeline.pipeline. fold file.
        by rewrite bind_run, Hload. }
      unfold emitted. rewrite Hp. cbn. rewrite drop_app_length. auto. }
  rewrite (He w).
  destruct (new_embeddings X e) as [[]|err] eqn:Hnew; cbn [fst snd].
  2:{ assert (rag_pipeline.pipeline X rag w
              = (Raise err, logged (evs1 ++ [NewEmbeddings e]) w)) as Hp.
      { unfold rag_pipeline.pipeline. fold file.
        rewrite bind_run, Hload. cbv beta iota.
        rewrite bind_run, He.
        by rewrite logged_logged. }
      unfold emitted. rewrite Hp. cbn. rewrite drop_app_length.
      repeat split; try done. apply Hnone.
      rewrite forallb_app, Hquiet1. done. }
  unfold rag_pipeline.pipeline. fold file dir.
  rewrite bind_run, Hload. cbv beta iota.
  rewrite bind_run, He. cbv beta iota.
  rewrite bind_run, get_retriever_run.
  cbn [retriever.init retriever.persist_directory retriever.collection_name
       retriever.embedding_ retriever.documents_].
  fold name.
  assert (Py.or_str (Some name) "contract" = name) as ->.
  { unfold name, rag_pipeline.collection_name_of.
    by destruct ((path_splitext X _).1). }
  rewrite !is_ready_logged.
  destruct (is_ready X w dir name); cbn [orb].
  - split; [done|]. split; [done|]. apply last_logged.
  - destruct (embed_documents X e _); cbn [is_ok].
    + split; [done|]. split; [done|]. apply last_logged.
    + split; [done|]. split; [done|]. apply last_logged.
Qed.

Lemma get_retriever_confined_to (X : Externals) (self : retriever.Retriever) :
  confined_to (retriever.persist_directory self, retriever.collection_name self)
    (retriever.get_retriever X self).
Proof.
  intros w. rewrite get_retriever_run.
  destruct (is_ready X w _ _); [done|].
  destruct (embed_documents X _ _) as [vectors|e]; [|done].
  cbn. split; [done|]. intros k Hk. by rewrite lookup_insert_ne.
Qed.

Lemma collection_name_of_nonempty (X : Externals) (file : string) :
  Py.or_str (Some (rag_pipeline.collection_name_of X file)) "contract"
  = rag_pipeline.collection_name_of X file.
Proof.
  unfold rag_pipeline.collection_name_of.
  by destruct ((path_splitext X _).1).
Qed.

Lemma pipeline_confined (X : Externals) (rag : rag_pipeline.RAGPipeline) :
  confined_to (rag_pipeline.vector_db_path rag,
               rag_pipeline.collection_name_of X (rag_pipeline.uploaded_file rag))
    (rag_pipeline.pipeline X rag).
Proof.
  unfold rag_pipeline.pipeline.
  apply confined_bind.
  { apply only_logs_confined, load_document_only_logs. }
  intros docs. apply confined_bind.
  { apply only_logs_confined, create_embeddings_only_logs. }
  intros emb. apply confined_bind.
  { pose proof (get_retriever_confined_to X
                  (retriever.init docs emb (rag_pipeline.vector_db_path rag)
                     (Some (rag_pipeline.collection_name_of X
                              (rag_pipeline.uploaded_file rag))))) as Hc.
    cbn [retriever.init retriever.persist_directory retriever.collection_name]
      in Hc.
    by rewrite collection_name_of_nonempty in Hc. }
  intros o. apply only_logs_confined. unfold print. only_logs.
Qed.

Lemma qa_chain_confined (X : Externals) (rag : rag_pipeline.RAGPipeline) :
  confined_to (rag_pipeline.vector_db_path rag,
               rag_pipeline.collection_name_of X (rag_pipeline.uploaded_file rag))
    (rag_pipeline.qa_chain X rag).
Proof.
  unfold rag_pipeline.qa_chain.
  apply confined_bind.
  { apply only_logs_confined, initialize_chat_model_only_logs. }
  intros h. apply confined_bind; [apply pipeline_confined|].
  intros o. apply only_logs_confined. only_logs.
Qed.

(** [qa_chain] builds the chat model before it looks at the document.
    When that construction fails, the failure is what [qa_chain] raises,
    and nothing else has happened: no file has been read, nothing has
    been chunked, embedded or persisted, no backend has been called. *)
Theorem qa_chain_fails_fast
    (X : Externals) (rag : rag_pipeline.RAGPipeline) (w : World) (e : exn) :
  let cm := chat_model.init (Some (rag_pipeline.llm_provider rag))
              (rag_pipeline.llm_model rag) (rag_pipeline.llm_api_key rag) in
  (chat_model.initialize_chat_model X cm w).1 = Raise e ->
  (rag_pipeline.qa_chain X rag w).1 = Raise e
  /\ chroma (rag_pipeline.qa_chain X rag w).2 = chroma w
  /\ db (rag_pipeline.qa_chain X rag w).2 = db w
  /\ forallb (fun ev => negb (is_load ev || is_index_call ev
                                || is_network_call ev))
       (emitted (rag_pipeline.qa_chain X rag) w) = true.
Proof.
  intros cm He.
  assert (rag_pipeline.qa_chain X rag w
          = (Raise e, (chat_model.initialize_chat_model X cm w).2)) as Hq.
  { unfold rag_pipeline.qa_chain. fold cm. rewrite bind_run.
    destruct (chat_model.initialize_chat_model X cm w) as [[h|e'] w1];
      [discriminate|]. cbn in He. by injection He as ->. }
  unfold emitted. rewrite Hq. cbn [fst snd].
  destruct (initialize_chat_model_cases X cm w) as [[e' He']|[_ [cls Hc]]].
  - rewrite He'. cbn. by rewrite drop_all.
  - rewrite Hc, chat_construct_run. cbn.
    by rewrite drop_app_length.
Qed.

Lemma qa_chain_fails_fast_witness :
  let rag :=
    {| rag_pipeline.uploaded_file := "lease.txt";
       rag_pipeline.vector_db_path := "../data/chroma_db";
       rag_pipeline.llm_provider := "mistral";
       rag_pipeline.llm_model := "mistral-large";
       rag_pipeline.llm_api_key := Some "key" |} in
  (rag_pipeline.qa_chain Scenario.base rag Scenario.fresh).1
  = Raise (ValueError "Unsupported LLM provider: mistral")
  /\ emitted (rag_pipeline.qa_chain Scenario.base rag) Scenario.fresh = [].
Proof.
  intros rag.
  destruct (qa_chain_fails_fast Scenario.base rag Scenario.fresh
              (ValueError "Unsupported LLM provider: mistral") eq_refl)
    as (Hr & _ & _ & _).
  split; [exact Hr|reflexivity].
Defined.

(** ** The handlers and the documents they may see *)

Lemma head_filter_none {A} (p : A -> bool) (l : list A) :
  (forall x, x ∈ l -> p x = false) -> head (List.filter p l) = None.
Proof.
  induction l as [|x l IH]; [done|]. intros Hall. cbn.
  rewrite (Hall x) by apply list_elem_of_here.
  apply IH. intros y Hy. apply Hall. by apply list_elem_of_further.
Qed.

Lemma head_filter_some {A} (p : A -> bool) (l : list A) (x : A) :
  head (List.filter p l) = Some x -> x ∈ l /\ p x = true.
Proof.
  induction l as [|y l IH]; [done|]. cbn.
  destruct (p y) eqn:Hy.
  - intros [= ->]. split; [apply list_elem_of_here|done].
  - intros H. apply IH in H as [H1 H2]. split; [|done].
    by apply list_elem_of_further.
Qed.

Lemma query_document_run (document_id user_id : Z) (w : World) :
  server.query_document document_id user_id w
  = (Ok (head (List.filter
                 (fun d => (doc_id d =? document_id) && (doc_user_id d =? user_id))
                 (documents (db w)))), w).
Proof. reflexivity. Qed.

Lemma query_document_unowned (document_id user_id : Z) (w : World) :
  (forall d, d ∈ documents (db w) -> doc_id d = document_id ->
             doc_user_id d <> user_id) ->
  server.query_document document_id user_id w = (Ok None, w).
Proof.
  intros Hown. rewrite query_document_run.
  rewrite head_filter_none; [done|]. intros d Hd.
  destruct (doc_id d =? document_id) eqn:Hid; [|done].
  apply Z.eqb_eq in Hid. cbn. apply Z.eqb_neq. by apply Hown.
Qed.

(** The handlers refuse a document id the requester does not own.  When
    no row has both the requested id and the requester's user id (the
    document does not exist, or it is someone else's), the chat,
    chunk-listing, detail, delete and history handlers all answer 404
    and leave everything as it was: nothing is read from disk, nothing
    is deleted, no backend is called.  This is a check on the row only:
    what a question about an owned document retrieves is decided by the
    collection name, which two documents can share. *)
Theorem handlers_refuse_unowned_documents
    (X : Externals) (H : Services) (request : server.Request)
    (document_id : Z) (w : World) :
  let question :=
    Py.strip (Py.or_str (server.request_json request !! "question") "") in
  (forall d, d ∈ documents (db w) -> doc_id d = document_id ->
             doc_user_id d <> server.request_user_id request) ->
  (question <> "" ->
     server.chat_with_document X request document_id w
     = (Ok (server.ErrorJson "Document not found", 404), w))
  /\ server.document_chunks X request document_id w
     = (Ok (server.ErrorJson "Document not found", 404), w)
  /\ (forall method,
        server.document_detail X H request method document_id w
        = (Ok (server.DetailError "Document not found", 404), w))
  /\ server.chat_history_ request document_id w
     = (Ok (server.HistoryError "Document not found", 404), w).
Proof.
  intros question Hown.
  pose proof (query_document_unowned document_id
                (server.request_user_id request) w Hown) as Hq.
  split; [|split; [|split]].
  - intros Hne. unfold server.chat_with_document. fold question.
    destruct question; [done|]. cbn [Py.is_empty].
    by rewrite bind_run, Hq.
  - unfold server.document_chunks. by rewrite bind_run, Hq.
  - intros method. unfold server.document_detail. by rewrite bind_run, Hq.
  - unfold server.chat_history_. by rewrite bind_run, Hq.
Qed.

Lemma handlers_refuse_unowned_documents_witness :
  let stranger :=
    server.mkRequest 8 {[ "question" := "How long is the lease term?" ]} in
  let services :=
    {| chroma_delete := fun _ _ => Ok ();
       os_remove := fun _ => Removed;
       jwt_decode := fun _ => InvalidTokenError |} in
  server.chat_with_document Scenario.base stranger 1 Scenario.uploaded
  = (Ok (server.ErrorJson "Document not found", 404), Scenario.uploaded)
  /\ server.document_detail Scenario.base services stranger server.DELETE 1
       Scenario.uploaded
     = (Ok (server.DetailError "Document not found", 404), Scenario.uploaded).
Proof.
  intros stranger services.
  assert (forall d, d ∈ documents (db Scenario.uploaded) -> doc_id d = 1 ->
                    doc_user_id d <> server.request_user_id stranger) as Hown.
  { intros d Hd _. apply list_elem_of_singleton in Hd as ->. discriminate. }
  destruct (handlers_refuse_unowned_documents Scenario.base services stranger 1
              Scenario.uploaded Hown) as (Hchat & _ & Hdetail & _).
  split; [apply Hchat; vm_compute; discriminate | apply Hdetail].
Defined.

(** ** Rows added by the handlers *)

Lemma next_id_gt (ids : list Z) (x : Z) :
  x ∈ ids -> x < server.next_id ids.
Proof.
  unfold server.next_id. induction ids as [|y ids IH]; [by intros ?%elem_of_nil|].
  intros [->|Hx]%elem_of_cons; cbn; [lia|]. specialize (IH Hx). lia.
Qed.

Lemma next_id_positive (ids : list Z) : 0 < server.next_id ids.
Proof.
  unfold server.next_id. induction ids as [|y ids IH]; cbn; lia.
Qed.

Lemma mark_only_new_row (rows : list DocumentRow) (row : DocumentRow) :
  (forall d, d ∈ rows -> doc_id d <> doc_id row) ->
  map (fun d => if doc_id d =? doc_id row then server.mark_indexed d else d)
      (rows ++ [row])
  = rows ++ [server.mark_indexed row].
Proof.
  intros Hfresh. rewrite map_app. cbn. rewrite Z.eqb_refl. f_equal.
  induction rows as [|d rows IH]; [done|]. cbn.
  destruct (doc_id d =? doc_id row) eqn:E.
  - apply Z.eqb_eq in E. by destruct (Hfresh d (list_elem_of_here _ _)).
  - f_equal. apply IH. intros d' Hd'. apply Hfresh.
    by apply list_elem_of_further.
Qed.

(** An upload adds exactly one document row and changes no other: the
    new row is the one returned, it carries the uploader's id and the
    names given, its id is larger than every id already in the table (so
    ids stay unique), and settings and chat history are untouched,
    whatever indexing did. *)
Theorem upload_adds_one_row
    (X : Externals) (user_id : Z)
    (storage_name original_name file_path : string) (file_size : Z)
    (w : World) :
  let uploaded :=
    server.upload_document X user_id storage_name original_name file_path
      file_size w in
  exists indexed,
    let row := mkDocumentRow (server.next_id (map doc_id (documents (db w))))
                 user_id storage_name original_name file_path file_size
                 indexed in
    uploaded.1 = Ok (server.DocumentJson row, 201)
    /\ documents (db uploaded.2) = documents (db w) ++ [row]
    /\ Forall (fun d => doc_id d < doc_id row) (documents (db w))
    /\ llm_settings (db uploaded.2) = llm_settings (db w)
    /\ chat_history (db uploaded.2) = chat_history (db w).
Proof.
  intros uploaded. subst uploaded.
  set (new_id := server.next_id (map doc_id (documents (db w)))).
  assert (Forall (fun d => doc_id d < new_id) (documents (db w))) as Hlt.
  { apply Forall_forall. intros d Hd. apply next_id_gt.
    apply list_elem_of_fmap. by exists d. }
  assert (exists indexed w2,
            server.upload_document X user_id storage_name original_name
              file_path file_size w
            = (Ok (server.DocumentJson
                     (mkDocumentRow new_id user_id storage_name original_name
                        file_path file_size indexed), 201), w2)
            /\ db w2
               = {| documents :=
                      documents (db w)
                      ++ [mkDocumentRow new_id user_id storage_name
                            original_name file_path file_size indexed];
                    llm_settings := llm_settings (db w);
                    chat_history := chat_history (db w) |})
    as (indexed & w2 & Hup & Hdb2).
  { unfold server.upload_document. rewrite bind_run.
    unfold server.add_document. run. fold new_id.
    set (row := mkDocumentRow new_id user_id storage_name original_name
                  file_path file_size false).
    set (w1 := set_db _ w).
    pose proof (pipeline_confined X
                  (rag_pipeline.init storage_name server.vector_store_db) w1)
      as [Hdb _].
    destruct (rag_pipeline.pipeline X _ w1) as [[o|e] w2]; cbn in Hdb |- *.
    - exists true. eexists. split; [reflexivity|]. cbn. rewrite Hdb.
      unfold w1, server.set_documents. cbn. f_equal.
      apply (mark_only_new_row (documents (db w)) row).
      intros d Hd. rewrite Forall_forall in Hlt. specialize (Hlt d Hd).
      cbn. lia.
    - exists false. eexists. split; [reflexivity|]. cbn. by rewrite Hdb. }
  exists indexed. rewrite Hup. cbn [fst snd]. rewrite Hdb2. cbn. done.
Qed.

Lemma answer_question_effect
    (X : Externals) (request : server.Request) (document_id : Z)
    (document : DocumentRow) (question : string)
    (rag : rag_pipeline.RAGPipeline) (w : World) :
  let run :=
    server.answer_question X request document_id document question rag w in
  let old := chat_history (db w) in
  llm_settings (db run.2) = llm_settings (db w)
  /\ ((exists error,
         run.1 = Ok (server.ErrorJson error, 500)
         /\ chat_history (db run.2) = old)
      \/ (exists cid answer contexts,
            run.1 = Ok (server.ChatJson cid answer contexts, 200)
            /\ chat_history (db run.2)
               = old ++ [{| chat_id := cid;
                            chat_user_id := server.request_user_id request;
                            chat_document_id := doc_id document;
                            chat_question := question;
                            chat_answer := answer;
                            chat_context_json :=
                              match contexts with
                              | [] => None
                              | _ => Some contexts
                              end |}]
            /\ Forall (fun c => chat_id c < cid) old
            /\ documents (db run.2)
               = map (fun d => if doc_id d =? doc_id document
                               then server.mark_indexed d else d)
                     (documents (db w)))).
Proof.
  intros run old.
  remember (server.answer_question X request document_id document question
              rag w) as result eqn:Hrun.
  subst run. revert Hrun.
  unfold server.answer_question. rewrite bind_run.
  unfold try_except at 1. rewrite bind_run.
  pose proof (qa_chain_confined X rag w) as [Hdb1 _].
  destruct (rag_pipeline.qa_chain X rag w) as [[chain|e] w1]; cbn in Hdb1.
  2:{ run. intros ->. cbn. rewrite Hdb1. split; [done|]. left. eauto. }
  rewrite bind_run. unfold server.commit_indexed at 1. run.
  set (w2 := set_db _ w1).
  assert (llm_settings (db w2) = llm_settings (db w)
          /\ chat_history (db w2) = old) as [Hs2 Hc2].
  { unfold w2. cbn. by rewrite Hdb1. }
  destruct (invoke_only_logs X chain {[ "input" := question ]} w2)
    as [evs Hw3].
  destruct (conversation_chain.invoke X chain _ w2) as [[out|e] w3];
    cbn in Hw3; subst w3; cbn.
  2:{ intros ->. cbn. rewrite Hdb1. split; [done|]. left. eauto. }
  unfold server.add_chat_entry. run. rewrite Hdb1. intros ->. cbn.
  split; [done|]. right. do 3 eexists. split; [reflexivity|].
  split; [reflexivity|]. split; [|done].
  apply Forall_forall. intros c Hc. apply next_id_gt.
  apply list_elem_of_fmap. by exists c.
Qed.

(** Answering a question stores the exchange exactly when it answers.
    A 500 (the chain could not be built, or invoking it failed) leaves
    the chat history as it was.  A 200 appends one entry, the one whose
    id and answer are returned, under the requester and the document,
    with an id larger than every earlier one; its stored context is the
    returned list, or nothing when that list is empty.  No other outcome
    exists, and the settings table is never touched. *)
Theorem answer_question_accounting
    (X : Externals) (request : server.Request) (document_id : Z)
    (document : DocumentRow) (question : string)
    (rag : rag_pipeline.RAGPipeline) (w : World) :
  let run :=
    server.answer_question X request document_id document question rag w in
  let old := chat_history (db w) in
  llm_settings (db run.2) = llm_settings (db w)
  /\ ((exists error,
         run.1 = Ok (server.ErrorJson error, 500)
         /\ chat_history (db run.2) = old)
      \/ (exists cid answer contexts,
            run.1 = Ok (server.ChatJson cid answer contexts, 200)
            /\ chat_history (db run.2)
               = old ++ [{| chat_id := cid;
                            chat_user_id := server.request_user_id request;
                            chat_document_id := doc_id document;
                            chat_question := question;
                            chat_answer := answer;
                            chat_context_json :=
                              match contexts with
                              | [] => None
                              | _ => Some contexts
                              end |}]
            /\ Forall (fun c => chat_id c < cid) old)).
Proof.
  intros run old.
  destruct (answer_question_effect X request document_id document question
              rag w) as [Hs [Herr|(cid & answer & contexts & H1 & H2 & H3 & _)]].
  - split; [exact Hs|]. by left.
  - split; [exact Hs|]. right. by exists cid, answer, contexts.
Qed.

(** ** Settings: what is stored and what the chat handler makes of it *)

(** [chat_with_document] once the question, the document and the
    provider are settled. *)
Lemma chat_with_document_resolved
    (X : Externals) (request : server.Request) (document_id : Z)
    (w : World) (document : DocumentRow) :
  let data := server.request_json request in
  let uid := server.request_user_id request in
  let question := Py.strip (Py.or_str (data !! "question") "") in
  let settings := current_settings w uid in
  let w1 := (server.get_or_create_llm_settings uid w).2 in
  let provider :=
    Py.lower
      (Py.or_str
         (Py.or_ (Py.or_none (Py.lower (Py.strip (Py.or_str (data !! "provider") ""))))
                 (preferred_provider settings))
         "openai") in
  let model_name :=
    server.resolve_model_name
      (Py.or_none (Py.strip (Py.or_str (data !! "model_name") "")))
      settings provider in
  let key := Py.or_ (stored_key settings provider) (environment_key X provider) in
  question <> "" ->
  (server.query_document document_id uid w).1 = Ok (Some document) ->
  Py.mem provider recognised_providers = true ->
  server.chat_with_document X request document_id w
  = if negb (Py.truthy key) then
      (Ok (server.ErrorJson
             ("No API key configured for provider " +:+ Py.title provider),
           400), w1)
    else
      server.answer_question X request document_id document question
        {| rag_pipeline.uploaded_file := doc_filename document;
           rag_pipeline.vector_db_path := server.vector_store_db;
           rag_pipeline.llm_provider := provider;
           rag_pipeline.llm_model := model_name;
           rag_pipeline.llm_api_key := key |} w1.
Proof.
  intros data uid question settings w1 provider model_name key Hq Hdoc Hp.
  destruct (get_or_create_llm_settings_run X uid w) as (w1' & Hs & _).
  assert (w1 = w1') as Hw1 by (unfold w1; by rewrite Hs).
  unfold server.chat_with_document. fold data uid question.
  destruct question as [|c q] eqn:Eq; [done|]. cbn [Py.is_empty].
  rewrite bind_run.
  unfold server.query_document in Hdoc |- *. revert Hdoc. run. intros [= ->].
  fold uid. rewrite Hs. cbn. fold settings provider.
  pose proof Hp as Hp'. unfold Py.mem, recognised_providers in Hp'.
  cbn [existsb] in Hp'. rewrite Hp'. cbn [negb].
  fold model_name.
  rewrite (resolve_api_key_precedence X settings provider Hp).
  fold key. rewrite <- Hw1.
  destruct (Py.truthy key); reflexivity.
Qed.

Lemma current_settings_created (X : Externals) (uid uid' : Z) (w : World) :
  current_settings (server.get_or_create_llm_settings uid w).2 uid'
  = current_settings w uid'.
Proof.
  unfold server.get_or_create_llm_settings, current_settings. run.
  destruct (llm_settings (db w) !! uid) as [s|] eqn:E; cbn; [done|].
  destruct (decide (uid = uid')) as [->|Hne].
  - by rewrite lookup_insert_eq, E.
  - by rewrite lookup_insert_ne.
Qed.

Lemma settings_have_model_created (X : Externals) (uid : Z) (w : World) :
  settings_have_model w ->
  settings_have_model (server.get_or_create_llm_settings uid w).2.
Proof.
  intros Hinv. unfold server.get_or_create_llm_settings. run.
  destruct (llm_settings (db w) !! uid) as [s|] eqn:E; cbn; [done|].
  intros uid' s'. cbn.
  destruct (decide (uid = uid')) as [->|Hne].
  - rewrite lookup_insert_eq. by intros [= <-].
  - rewrite lookup_insert_ne by done. apply Hinv.
Qed.

(** Every run of [update_llm_settings] for a request it does not reject
    outright. *)
Lemma update_llm_settings_run (X : Externals) (users : list Z)
    (request : server.Request) (w : World) :
  let data := server.request_json request in
  let uid := server.request_user_id request in
  let provider :=
    Py.or_none (Py.strip (Py.lower (Py.or_str (data !! "provider") ""))) in
  let model_name := Py.strip (Py.or_str (data !! "model_name") "") in
  let w1 := (server.get_or_create_llm_settings uid w).2 in
  let keyed := server.update_keys data (current_settings w uid) in
  match provider with
  | Some p => Py.mem p recognised_providers = true
  | None => True
  end ->
  existsb (Z.eqb uid) users = true ->
  server.update_llm_settings X users request w =
    match provider with
    | Some p =>
        let chosen := server.update_default p model_name keyed in
        if negb (Py.truthy (server.resolved_key X chosen p)) then
          (Ok (server.SettingsError
                 ("No API key configured for provider " +:+ Py.title p), 400),
           w1)
        else
          (Ok (server.SettingsJson (server.to_public_dict chosen), 200),
           (server.commit_settings uid chosen w1).2)
    | None =>
        (Ok (server.SettingsJson (server.to_public_dict keyed), 200),
         (server.commit_settings uid keyed w1).2)
    end.
Proof.
  intros data uid provider model_name w1 keyed Hp Hu.
  destruct (get_or_create_llm_settings_run X uid w) as (w1' & Hs & _).
  assert (w1 = w1') as Hw1 by (unfold w1; by rewrite Hs).
  unfold server.update_llm_settings. fold data uid provider model_name.
  rewrite Hu. cbn [negb].
  destruct provider as [p|].
  - unfold recognised_providers in Hp. rewrite Hp. cbn [negb].
    rewrite bind_run, Hs. cbv beta iota. fold keyed. rewrite <- Hw1.
    destruct (Py.truthy _); reflexivity.
  - rewrite bind_run, Hs. cbv beta iota. fold keyed. by rewrite <- Hw1.
Qed.

Lemma current_settings_committed (uid uid' : Z) (s : LLMSettings) (w : World) :
  current_settings (server.commit_settings uid s w).2 uid'
  = if decide (uid = uid') then s else current_settings w uid'.
Proof.
  unfold current_settings, server.commit_settings. run.
  destruct (decide (uid = uid')) as [->|Hne].
  - by rewrite lookup_insert_eq.
  - by rewrite lookup_insert_ne.
Qed.

(** A settings update that is refused stores nothing.  Whatever the
    request carried (new keys, a key to clear, a provider, a model), when
    the answer is an error every user's effective settings are what they
    were, and documents, chat history, vector store and call log are
    unchanged.  This includes the case where the request supplied keys
    but the chosen provider still has none. *)
Theorem rejected_settings_update_stores_nothing
    (X : Externals) (users : list Z) (request : server.Request) (w : World)
    (error : string) (status : Z) :
  let w' := (server.update_llm_settings X users request w).2 in
  (server.update_llm_settings X users request w).1
    = Ok (server.SettingsError error, status) ->
  (forall uid, current_settings w' uid = current_settings w uid)
  /\ documents (db w') = documents (db w)
  /\ chat_history (db w') = chat_history (db w)
  /\ chroma w' = chroma w
  /\ trace w' = trace w.
Proof.
  intros w'. subst w'.
  destruct (get_or_create_llm_settings_run X (server.request_user_id request) w)
    as (w1 & Hs & Htr & Hch & Hdocs).
  assert (forall uid, current_settings w1 uid = current_settings w uid) as Hcur.
  { intros uid.
    pose proof (current_settings_created X (server.request_user_id request)
                  uid w) as Hc.
    by rewrite Hs in Hc. }
  assert (chat_history (db w1) = chat_history (db w)) as Hhist.
  { revert Hs. unfold server.get_or_create_llm_settings. run.
    destruct (llm_settings (db w) !! _); cbn; by intros [= _ <-]. }
  remember (server.update_llm_settings X users request w) as result eqn:Hr.
  revert Hr. unfold server.update_llm_settings.
  destruct (match Py.or_none _ with Some p => _ | None => false end);
    [by intros ->|].
  destruct (negb (existsb _ users)); [by intros ->|].
  rewrite bind_run, Hs. cbv beta iota.
  destruct (Py.or_none _) as [p|].
  - destruct (negb (Py.truthy _)); intros ->; cbn; [done|discriminate].
  - intros ->. cbn. discriminate.
Qed.

Lemma rejected_settings_update_stores_nothing_witness :
  let request :=
    server.mkRequest 7 {[ "provider" := "claude"; "groq_api_key" := "" ]} in
  current_settings
    (server.update_llm_settings Scenario.base [7] request Scenario.uploaded).2 7
  = Scenario.groq_user.
Proof.
  intros request.
  refine (proj1 (rejected_settings_update_stores_nothing Scenario.base [7]
                   request Scenario.uploaded
                   "No API key configured for provider Claude" 400 _) 7).
  reflexivity.
Defined.

Lemma get_existing_settings (uid : Z) (s : LLMSettings) (w : World) :
  llm_settings (db w) !! uid = Some s ->
  server.get_or_create_llm_settings uid w = (Ok s, w).
Proof.
  intros Hs. unfold server.get_or_create_llm_settings. run. by rewrite Hs.
Qed.

Lemma recognised_is_lowercase (p : string) :
  Py.mem p recognised_providers = true -> Py.lower p = p /\ p <> "".
Proof.
  unfold Py.mem, recognised_providers. cbn [existsb].
  intros H.
  repeat (apply orb_prop in H as [H|H]);
    try (apply String.eqb_eq in H as ->; by vm_compute).
  discriminate.
Qed.

(** A provider accepted as the default can be used.  When
    [update_llm_settings] answers 200 to a request that names a
    provider, a later question by the same user that names no provider,
    about a document that user owns, is answered with that provider and
    with the key the update found for it: the chat handler does not
    refuse it for a missing key or an unsupported provider. *)
Theorem accepted_default_is_usable
    (X : Externals) (users : list Z) (update ask : server.Request)
    (document_id : Z) (document : DocumentRow) (w : World)
    (p : string) (llm : server.PublicSettings) :
  let uid := server.request_user_id update in
  let w' := (server.update_llm_settings X users update w).2 in
  let stored := current_settings w' uid in
  let question :=
    Py.strip (Py.or_str (server.request_json ask !! "question") "") in
  Py.or_none (Py.strip (Py.lower
     (Py.or_str (server.request_json update !! "provider") ""))) = Some p ->
  (server.update_llm_settings X users update w).1
    = Ok (server.SettingsJson llm, 200) ->
  server.request_user_id ask = uid ->
  server.request_json ask !! "provider" = None ->
  question <> "" ->
  (server.query_document document_id uid w').1 = Ok (Some document) ->
  Py.truthy (server.resolved_key X stored p) = true
  /\ server.chat_with_document X ask document_id w'
     = server.answer_question X ask document_id document question
         {| rag_pipeline.uploaded_file := doc_filename document;
            rag_pipeline.vector_db_path := server.vector_store_db;
            rag_pipeline.llm_provider := p;
            rag_pipeline.llm_model :=
              server.resolve_model_name
                (Py.or_none (Py.strip
                   (Py.or_str (server.request_json ask !! "model_name") "")))
                stored p;
            rag_pipeline.llm_api_key := server.resolved_key X stored p |} w'.
Proof.
  intros uid w' stored question Hprov Hok Hsame Hnone Hq Hdoc.
  (* what the update did *)
  assert (Py.mem p recognised_providers = true
          /\ existsb (Z.eqb uid) users = true) as [Hp Hu].
  { revert Hok. unfold server.update_llm_settings. rewrite Hprov.
    fold uid. unfold recognised_providers.
    destruct (Py.mem p _); [|discriminate].
    by destruct (existsb (Z.eqb uid) users). }
  pose proof (update_llm_settings_run X users update w) as Hrun.
  cbv zeta in Hrun. rewrite Hprov in Hrun. fold uid in Hrun.
  specialize (Hrun Hp Hu).
  set (chosen := server.update_default p _ _) in Hrun.
  destruct (Py.truthy (server.resolved_key X chosen p)) eqn:Hkey;
    cbn [negb] in Hrun; [|by rewrite Hrun in Hok].
  assert (llm_settings (db w') !! uid = Some chosen) as Hrow.
  { unfold w'. rewrite Hrun. cbn. by rewrite lookup_insert_eq. }
  assert (stored = chosen) as Hstored.
  { unfold stored, current_settings. by rewrite Hrow. }
  rewrite Hstored. split; [exact Hkey|].
  (* what the chat handler makes of it *)
  destruct (recognised_is_lowercase p Hp) as [Hlow Hne].
  pose proof (chat_with_document_resolved X ask document_id w' document)
    as Hchat.
  cbv zeta in Hchat. rewrite Hsame, Hnone in Hchat.
  fold stored in Hchat. rewrite Hstored in Hchat.
  assert (preferred_provider chosen = Some p) as Hpref by done.
  rewrite Hpref in Hchat.
  assert (Py.lower (Py.or_str
            (Py.or_ (Py.or_none (Py.lower (Py.strip (Py.or_str None ""))))
               (Some p)) "openai") = p) as Hres.
  { cbn. destruct p; [done|]. exact Hlow. }
  rewrite Hres in Hchat.
  rewrite (get_existing_settings uid chosen w' Hrow) in Hchat.
  cbn [snd] in Hchat.
  assert (Py.or_ (stored_key chosen p) (environment_key X p)
          = server.resolved_key X chosen p) as Hsamekey.
  { unfold stored_key, environment_key, server.resolved_key,
      server.OPENAI_API_KEY, server.GEMINI_API_KEY, server.ANTHROPIC_API_KEY,
      server.GROQ_API_KEY.
    pose proof Hp as Hp'. unfold Py.mem, recognised_providers in Hp'.
    cbn [existsb] in Hp'.
    repeat case_match; try done. }
  rewrite Hsamekey, Hkey in Hchat. cbn [negb] in Hchat.
  apply Hchat; [exact Hq | exact Hdoc | exact Hp].
Qed.

Lemma accepted_default_is_usable_witness :
  let update := server.mkRequest 7 {[ "provider" := " Groq" ]} in
  let ask := server.mkRequest 7 {[ "question" := "How long is the lease term?" ]} in
  let w' :=
    (server.update_llm_settings Scenario.groq_env [7] update Scenario.uploaded).2 in
  server.chat_with_document Scenario.groq_env ask 1 w'
  = server.answer_question Scenario.groq_env ask 1 Scenario.lease_row
      "How long is the lease term?"
      {| rag_pipeline.uploaded_file := "lease.txt";
         rag_pipeline.vector_db_path := "../data/chroma_db";
         rag_pipeline.llm_provider := "groq";
         rag_pipeline.llm_model := "llama3-70b-8192";
         rag_pipeline.llm_api_key := Some "gsk-user" |} w'.
Proof.
  intros update ask w'.
  refine (proj2 (accepted_default_is_usable Scenario.groq_env [7] update ask 1
                   Scenario.lease_row Scenario.uploaded "groq"
                   (server.to_public_dict Scenario.groq_user) _ _ _ _ _ _)).
  - reflexivity.
  - reflexivity.
  - reflexivity.
  - reflexivity.
  - vm_compute. discriminate.
  - reflexivity.
Defined.

Lemma settings_have_model_updated (X : Externals) (users : list Z)
    (request : server.Request) (w : World) :
  settings_have_model w ->
  settings_have_model (server.update_llm_settings X users request w).2.
Proof.
  intros Hinv.
  pose proof (settings_have_model_created X (server.request_user_id request)
                w Hinv) as Hinv1.
  destruct (get_or_create_llm_settings_run X (server.request_user_id request) w)
    as (w1 & Hs & _).
  rewrite Hs in Hinv1. cbn [snd] in Hinv1.
  assert (Py.truthy (settings_model_name
            (current_settings w (server.request_user_id request))) = true)
    as Hcur.
  { unfold current_settings.
    destruct (llm_settings (db w) !! _) as [s|] eqn:E; [|done].
    by eapply Hinv. }
  assert (forall s, Py.truthy (settings_model_name s) = true ->
            settings_have_model
              (server.commit_settings (server.request_user_id request) s w1).2)
    as Hcommit.
  { intros s Hm uid' s'. unfold server.commit_settings. run.
    destruct (decide (server.request_user_id request = uid')) as [->|Hne].
    - rewrite lookup_insert_eq. by intros [= <-].
    - rewrite lookup_insert_ne by done. apply Hinv1. }
  remember (server.update_llm_settings X users request w) as result eqn:Hr.
  revert Hr. unfold server.update_llm_settings.
  destruct (match Py.or_none _ with Some p => _ | None => false end);
    [by intros ->|].
  destruct (negb (existsb _ users)); [by intros ->|].
  rewrite bind_run, Hs. cbv beta iota.
  destruct (Py.or_none _) as [p|].
  - destruct (negb (Py.truthy _)); intros ->; [done|].
    apply Hcommit. cbn.
    destruct (Py.is_empty (Py.strip _)) eqn:Hm; [exact Hcur|].
    cbn. by rewrite Hm.
  - intros ->. apply Hcommit. exact Hcur.
Qed.

(** The per-provider default model names of [chat_with_document] are
    never used.  A settings row is created with the model
    [gpt-4o-mini], and [update_llm_settings] only ever replaces a model
    name by a non-empty one, so every stored row names a model; and as
    long as that holds, the model the chat handler picks is the
    request's, else the stored one, whatever the provider: a new user
    who asks with provider [claude] and no model is served with
    [gpt-4o-mini]. *)
Theorem stored_model_shadows_provider_defaults
    (X : Externals) (users : list Z) (request : server.Request) (w : World) :
  settings_have_model w ->
  settings_have_model (server.update_llm_settings X users request w).2
  /\ settings_have_model
       (server.get_or_create_llm_settings (server.request_user_id request) w).2
  /\ (forall uid requested provider,
        server.resolve_model_name requested (current_settings w uid) provider
        = match requested with
          | Some m => m
          | None => Py.or_str (settings_model_name (current_settings w uid)) ""
          end)
  /\ (forall uid provider,
        llm_settings (db w) !! uid = None ->
        server.resolve_model_name None (current_settings w uid) provider
        = "gpt-4o-mini").
Proof.
  intros Hinv. split; [by apply settings_have_model_updated|].
  split; [by apply settings_have_model_created|].
  split.
  - intros uid requested provider. unfold server.resolve_model_name.
    destruct requested; [done|].
    assert (Py.truthy (settings_model_name (current_settings w uid)) = true)
      as ->; [|done].
    unfold current_settings.
    destruct (llm_settings (db w) !! uid) as [s|] eqn:E; [|done].
    by eapply Hinv.
  - intros uid provider Hnone. unfold current_settings. by rewrite Hnone.
Qed.

Lemma stored_model_shadows_provider_defaults_witness :
  server.resolve_model_name None (current_settings Scenario.fresh 9) "claude"
  = "gpt-4o-mini".
Proof.
  refine (proj2 (proj2 (proj2
            (stored_model_shadows_provider_defaults Scenario.base []
               (server.mkRequest 9 ∅) Scenario.fresh _))) 9 "claude" _).
  - intros uid s Hs. vm_compute in Hs. discriminate.
  - reflexivity.
Defined.

(** ** Deleting a document and its index *)

(** Every run of [delete_document_vector_index]. *)
Lemma delete_document_vector_index_run (X : Externals) (H : Services)
    (filename : string) (w : World) :
  let name := rag_pipeline.collection_name_of X filename in
  server.delete_document_vector_index X H filename w
  = (Ok (),
     if is_ok (chroma_delete H server.vector_store_db name) then
       set_chroma (delete (server.vector_store_db, name) (chroma w)) w
     else w).
Proof.
  intros name. subst name.
  unfold server.delete_document_vector_index,
    rag_pipeline.collection_name_of. run.
  by destruct (chroma_delete H _ _) as [[]|e].
Qed.

(** Index cleanup is best effort and aims at the right collection.
    [delete_document_vector_index] never raises and never touches the
    database or any other collection.  When Chroma reports success the
    collection is gone, and it is the very collection the pipeline reads
    and writes for that storage filename, so a later pipeline run for the
    file finds it not Ready and rebuilds.  When Chroma fails, the failure
    is dropped and the collection stays. *)
Theorem index_cleanup_is_best_effort
    (X : Externals) (H : Services) (filename : string) (w : World) :
  let rag := rag_pipeline.init filename server.vector_store_db in
  let key := (rag_pipeline.vector_db_path rag,
              rag_pipeline.collection_name_of X (rag_pipeline.uploaded_file rag)) in
  let run := server.delete_document_vector_index X H filename w in
  run.1 = Ok ()
  /\ db run.2 = db w
  /\ trace run.2 = trace w
  /\ (forall k, k <> key -> chroma run.2 !! k = chroma w !! k)
  /\ (chroma_delete H key.1 key.2 = Ok () ->
        chroma run.2 !! key = None
        /\ is_ready X run.2 key.1 key.2 = false)
  /\ (forall e, chroma_delete H key.1 key.2 = Raise e -> run.2 = w).
Proof.
  intros rag key run. subst run key rag.
  rewrite delete_document_vector_index_run.
  cbn [fst snd rag_pipeline.init rag_pipeline.vector_db_path
       rag_pipeline.uploaded_file].
  generalize (rag_pipeline.collection_name_of X filename) as name.
  generalize server.vector_store_db as dir. intros dir name.
  destruct (chroma_delete H dir name) as [[]|e]; cbn [is_ok].
  - repeat split; try done.
    + intros k Hk. cbn [set_chroma chroma]. by apply lookup_delete_ne.
    + cbn [set_chroma chroma]. apply lookup_delete_eq.
    + unfold is_ready, retriever.entries_of. cbn [set_chroma chroma].
      rewrite lookup_delete_eq. cbn. apply andb_false_r.
  - repeat split; try done.
Qed.

Lemma index_cleanup_is_best_effort_witness :
  let services :=
    {| chroma_delete := fun _ _ => Ok ();
       os_remove := fun _ => Removed;
       jwt_decode := fun _ => InvalidTokenError |} in
  let w' :=
    (server.delete_document_vector_index Scenario.base services "lease.txt"
       Scenario.indexed).2 in
  chroma w' !! ("../data/chroma_db", "lease") = None
  /\ is_ready Scenario.base w' "../data/chroma_db" "lease" = false.
Proof.
  intros services w'.
  refine (proj1 (proj2 (proj2 (proj2 (proj2
            (index_cleanup_is_best_effort Scenario.base services "lease.txt"
               Scenario.indexed))))) _).
  reflexivity.
Defined.

(** ** The chat history *)






(** Deleting a document removes its row and its chat entries and nothing
    else from the database: afterwards no user can reach that id, rows of
    other documents, their chat entries and all settings are as before.
    This is so even when index or file cleanup fails.  The answer is 200
    when the file is no longer there, when removing it succeeds and when
    removing it raises an [OSError] of any kind (permission denied, a
    directory in its place, ...), which is dropped; only an exception
    that is not an [OSError] is raised, after the row has been
    deleted. *)
Theorem document_delete_effect
    (X : Externals) (H : Services) (request : server.Request)
    (document_id : Z) (document : DocumentRow) (w : World) :
  let run :=
    server.document_detail X H request server.DELETE document_id w in
  (server.query_document document_id (server.request_user_id request) w).1
    = Ok (Some document) ->
  documents (db run.2)
    = List.filter (fun d => negb (doc_id d =? document_id)) (documents (db w))
  /\ chat_history (db run.2)
     = List.filter (fun c => negb (chat_document_id c =? document_id))
         (chat_history (db w))
  /\ llm_settings (db run.2) = llm_settings (db w)
  /\ (forall uid, (server.query_document document_id uid run.2).1 = Ok None)
  /\ (path_exists X (doc_file_path document) = false ->
        run.1 = Ok (server.DetailMessage "Document deleted", 200))
  /\ ((forall e, os_remove H (doc_file_path document) = RemoveRaises e ->
                 is_OSError e = true) ->
        run.1 = Ok (server.DetailMessage "Document deleted", 200))
  /\ (forall e,
        doc_file_path document <> "" ->
        path_exists X (doc_file_path document) = true ->
        os_remove H (doc_file_path document) = RemoveRaises e ->
        is_OSError e = false ->
        run.1 = Raise e).
Proof.
  intros run Hdoc.
  rewrite query_document_run in Hdoc. cbn [fst] in Hdoc.
  injection Hdoc as Hdoc.
  destruct (head_filter_some _ _ _ Hdoc) as [_ Hmatch].
  apply andb_prop in Hmatch as [Hid _]. apply Z.eqb_eq in Hid.
  assert (exists r w',
            run = (r, w')
            /\ db w'
               = {| documents :=
                      List.filter (fun d => negb (doc_id d =? document_id))
                        (documents (db w));
                    llm_settings := llm_settings (db w);
                    chat_history :=
                      List.filter
                        (fun c => negb (chat_document_id c =? document_id))
                        (chat_history (db w)) |}
            /\ r = (if negb (Py.is_empty (doc_file_path document))
                        && path_exists X (doc_file_path document)
                     then
                       match os_remove H (doc_file_path document) with
                       | RemoveRaises e =>
                           if is_OSError e
                           then Ok (server.DetailMessage "Document deleted",
                                    200)
                           else Raise e
                       | _ => Ok (server.DetailMessage "Document deleted", 200)
                       end
                     else Ok (server.DetailMessage "Document deleted", 200)))
    as (r & w' & Hrun & Hdb & Hr).
  { subst run. unfold server.document_detail.
    rewrite bind_run, query_document_run, Hdoc. cbv beta iota.
    rewrite bind_run.
    assert (exists c,
              (if Py.is_empty (doc_filename document) then mret ()
               else server.delete_document_vector_index X H
                      (doc_filename document)) w
              = (Ok (), set_chroma c w)) as [c ->].
    { destruct (Py.is_empty _).
      - exists (chroma w). unfold mret, M_ret, set_chroma. by destruct w.
      - rewrite delete_document_vector_index_run.
        destruct (is_ok _); [eexists; reflexivity|].
        exists (chroma w). unfold set_chroma. by destruct w. }
    cbv beta iota. rewrite bind_run.
    unfold server.delete_document_row at 1. run. rewrite Hid.
    destruct (negb (Py.is_empty _) && path_exists X _); run;
      [|eauto 10].
    unfold try_except_OSError.
    destruct (os_remove H (doc_file_path document)) as [| |e]; run;
      [eauto 10..|].
    destruct (is_OSError e); run; eauto 10. }
  rewrite Hrun. cbn [fst snd]. rewrite Hdb. cbn [documents chat_history
    llm_settings].
  split; [done|]. split; [done|]. split; [done|]. split; [|split; [|split]].
  - intros uid. rewrite query_document_run. cbn [fst]. rewrite Hdb. cbn.
    rewrite head_filter_none; [done|].
    intros d Hd. apply list_elem_of_In, List.filter_In in Hd as [_ Hd].
    apply negb_true_iff in Hd. by rewrite Hd.
  - intros Hgone. by rewrite Hr, Hgone, andb_false_r.
  - intros Hos. rewrite Hr.
    destruct (negb (Py.is_empty _) && path_exists X _); [|done].
    destruct (os_remove H (doc_file_path document)) as [| |e] eqn:Hrm;
      [done..|].
    by rewrite (Hos e eq_refl).
  - intros e Hne Hex Hrm Hcls. rewrite Hr, Hex, Hrm, Hcls.
    by destruct (doc_file_path document).
Qed.

Lemma document_delete_effect_witness :
  let services :=
    {| chroma_delete := fun _ _ => Raise (LibraryError "locked");
       os_remove := fun _ =>
         RemoveOSError "PermissionError" "[Errno 13] Permission denied";
       jwt_decode := fun _ => InvalidTokenError |} in
  let run :=
    server.document_detail Scenario.base services (server.mkRequest 7 ∅)
      server.DELETE 1 Scenario.uploaded in
  documents (db run.2) = []
  /\ (server.query_document 1 7 run.2).1 = Ok None
  /\ run.1 = Ok (server.DetailMessage "Document deleted", 200).
Proof.
  intros services run.
  destruct (document_delete_effect Scenario.base services
              (server.mkRequest 7 ∅) 1 Scenario.lease_row Scenario.uploaded
              eq_refl) as (Hdocs & _ & _ & Hgone & _ & Hdropped & _).
  split; [exact Hdocs|]. split; [apply Hgone|].
  apply Hdropped. intros e [=].
Defined.

(** ** Serialized retrieval context *)

Lemma elem_of_enumerate_from {A} (l : list A) (k i : Z) (x : A) :
  (i, x) ∈ Py.enumerate_from k l
  <-> exists n : nat, l !! n = Some x /\ i = k + Z.of_nat n.
Proof.
  revert k. induction l as [|y l IH]; intros k; cbn.
  - split; [by intros ?%elem_of_nil | by intros (n & ? & _)].
  - rewrite elem_of_cons, IH. split.
    + intros [[= -> ->]|(n & Hn & ->)].
      * exists 0%nat. split; [done|lia].
      * exists (S n). split; [done|lia].
    + intros ([|n] & Hn & ->); cbn in Hn.
      * left. injection Hn as ->. f_equal. lia.
      * right. exists n. split; [done|lia].
Qed.

(** The contexts returned with an answer are the retrieved documents
    that have text, each under its position in the retrieved list: a
    document with empty text is left out and its position number is not
    reused, so ids can have gaps, and no returned text is empty. *)
Theorem serialize_contexts_spec (context_docs : list Document) (c : ChunkJson) :
  c ∈ server.serialize_contexts context_docs
  <-> exists (i : nat) d,
        context_docs !! i = Some d
        /\ page_content d <> ""
        /\ c = mkChunkJson (Z.of_nat i) (page_content d) (metadata d).
Proof.
  unfold server.serialize_contexts, Py.enumerate.
  rewrite list_elem_of_omap. split.
  - intros ([i d] & Hin & Hc).
    apply elem_of_enumerate_from in Hin as (n & Hn & ->).
    exists n, d. cbn in Hc.
    destruct (Py.is_empty (page_content d)) eqn:Hp; [done|].
    injection Hc as <-. split; [done|]. split; [|done].
    intros Hempty. by rewrite Hempty in Hp.
  - intros (n & d & Hn & Hp & ->). exists (Z.of_nat n, d). split.
    + apply elem_of_enumerate_from. by exists n.
    + by destruct (page_content d).
Qed.

Lemma serialize_contexts_spec_witness :
  mkChunkJson 2 (page_content Scenario.scan_page) (metadata Scenario.scan_page)
  ∈ server.serialize_contexts
      [Scenario.lease; mkDocument "" []; Scenario.scan_page].
Proof.
  refine (proj2 (serialize_contexts_spec _ _) _).
  exists 2%nat, Scenario.scan_page. split; [reflexivity|]. split; [|reflexivity].
  discriminate.
Defined.

(** ** File names and extensions *)

Lemma after_last_contains (c : ascii) (s : string) :
  Py.contains c s = true <-> is_Some (Py.after_last c s).
Proof.
  induction s as [|a s IH]; cbn.
  - split; [done|by intros [? ?]].
  - destruct (Py.after_last c s) as [r|].
    + assert (Py.contains c s = true) as -> by (apply IH; eauto).
      rewrite orb_true_r. split; eauto.
    + assert (Py.contains c s = false) as ->.
      { destruct (Py.contains c s); [|done].
        by destruct (proj1 IH eq_refl). }
      rewrite orb_false_r.
      destruct (Ascii.eqb a c); split; eauto; try done; by intros [? ?].
Qed.

Lemma after_last_split (c : ascii) (s r : string) :
  Py.after_last c s = Some r ->
  exists p, s = p +:+ String c r /\ Py.contains c r = false.
Proof.
  revert r. induction s as [|a s IH]; intros r; cbn; [done|].
  destruct (Py.after_last c s) as [r'|] eqn:E.
  - intros [= <-]. destruct (IH r' eq_refl) as (p & -> & Hr).
    by exists (String a p).
  - destruct (Ascii.eqb a c) eqn:Ea; [|done]. intros [= <-].
    apply Ascii.eqb_eq in Ea as ->. exists "". split; [done|].
    destruct (Py.contains c s) eqn:Hc; [|done].
    apply after_last_contains in Hc as [? Hc]. congruence.
Qed.

Lemma after_last_app (c : ascii) (p r : string) :
  Py.contains c r = false ->
  Py.after_last c (p +:+ String c r) = Some r.
Proof.
  intros Hr.
  assert (Py.after_last c r = None) as Hnone.
  { destruct (Py.after_last c r) eqn:E; [|done].
    assert (Py.contains c r = true) by (apply after_last_contains; eauto).
    congruence. }
  induction p as [|a p IH]; simpl.
  - by rewrite Hnone, Ascii.eqb_refl.
  - by rewrite IH.
Qed.

(** Only the last extension counts.  [allowed_file] accepts a name
    exactly when it ends in a dot followed by a dot-free extension that
    is, ignoring case, one of [txt], [pdf], [docx], [doc]; whatever
    precedes that last dot, other dots included, plays no role. *)
Theorem allowed_file_spec (filename : string) :
  server.allowed_file filename = true
  <-> exists stem ext,
        filename = stem +:+ "." +:+ ext
        /\ Py.contains "." ext = false
        /\ Py.mem (Py.lower ext) server.ALLOWED_EXTENSIONS = true.
Proof.
  unfold server.allowed_file, Py.rsplit1. split.
  - intros [Hdot Hext]%andb_prop.
    apply after_last_contains in Hdot as [r Hr]. rewrite Hr in Hext.
    cbn in Hext. destruct (after_last_split _ _ _ Hr) as (p & -> & Hc).
    by exists p, r.
  - intros (stem & ext & -> & Hc & Hm).
    change (stem +:+ "." +:+ ext) with (stem +:+ String "." ext).
    pose proof (after_last_app "." stem ext Hc) as Hr.
    assert (Py.contains "." (stem +:+ String "." ext) = true) as ->.
    { apply after_last_contains. rewrite Hr. eauto. }
    rewrite Hr. cbn. exact Hm.
Qed.

Lemma allowed_file_spec_witness :
  server.allowed_file "lease.v2.PDF" = true.
Proof.
  refine (proj2 (allowed_file_spec "lease.v2.PDF") _).
  exists "lease.v2", "PDF". split; [reflexivity|]. split; reflexivity.
Defined.

Lemma lower_dot (ext : string) :
  Py.lower ("." +:+ ext) = "." +:+ Py.lower ext.
Proof. reflexivity. Qed.

(** The upload filter and the loader agree on extensions.  For a file
    that exists and whose path has the extension [.ext]: if [ext] is one
    the upload filter admits, [load_document] hands the file to a loader;
    if not, it raises [ValueError] naming the lower-cased extension and
    calls nothing. *)
Theorem upload_filter_matches_loaders
    (X : Externals) (self : data_loader.LoadDocuments) (w : World)
    (root ext : string) :
  let path := data_loader._resolve_path X self in
  path_exists X path = true ->
  path_splitext X path = (root, "." +:+ ext) ->
  if Py.mem (Py.lower ext) server.ALLOWED_EXTENSIONS then
    exists l evs,
      (data_loader.load_document X self w).2
      = logged (LoadFile l path :: evs) w
  else
    data_loader.load_document X self w
    = (Raise (ValueError ("Unsupported file type for RAG pipeline: ."
                          +:+ Py.lower ext)), w).
Proof.
  intros path Hex Hext.
  unfold data_loader.load_document. fold path.
  rewrite Hex, Hext. cbn [negb snd]. rewrite lower_dot.
  unfold Py.mem, server.ALLOWED_EXTENSIONS. cbn [existsb].
  change (String.eqb ("." +:+ Py.lower ext) ".pdf")
    with (String.eqb (Py.lower ext) "pdf").
  change (String.eqb ("." +:+ Py.lower ext) ".txt")
    with (String.eqb (Py.lower ext) "txt").
  change (String.eqb ("." +:+ Py.lower ext) ".doc")
    with (String.eqb (Py.lower ext) "doc").
  change (String.eqb ("." +:+ Py.lower ext) ".docx")
    with (String.eqb (Py.lower ext) "docx").
  generalize (Py.lower ext) as e. intros e.
  assert (forall l,
            exists l' evs,
              add_event (LoadFile l path) w = logged (LoadFile l' path :: evs) w)
    as Hone by (intros l; by exists l, []).
  destruct (String.eqb e "pdf") eqn:Epdf.
  { apply String.eqb_eq in Epdf as ->. cbn.
    unfold data_loader.load_with. run.
    destruct (run_loader X PyPDFLoader path); cbn [snd]; [apply Hone|].
    exists PyPDFLoader, [LoadFile PyMuPDFLoader path].
    by rewrite add_event_twice. }
  destruct (String.eqb e "txt") eqn:Etxt.
  { apply String.eqb_eq in Etxt as ->. cbn.
    unfold data_loader.load_with. run.
    destruct (run_loader X TextLoader path); apply Hone. }
  destruct (String.eqb e "docx") eqn:Edocx.
  { apply String.eqb_eq in Edocx as ->. cbn.
    unfold data_loader.load_with. run.
    destruct (run_loader X UnstructuredWordDocumentLoader path); apply Hone. }
  destruct (String.eqb e "doc") eqn:Edoc.
  { apply String.eqb_eq in Edoc as ->. cbn.
    unfold data_loader.load_with. run.
    destruct (run_loader X UnstructuredWordDocumentLoader path); apply Hone. }
  cbn. reflexivity.
Qed.

Lemma upload_filter_matches_loaders_witness :
  exists l evs,
    (data_loader.load_document Scenario.base (data_loader.init "scan.pdf")
       Scenario.fresh).2
    = logged (LoadFile l "uploads/scan.pdf" :: evs) Scenario.fresh.
Proof.
  exact (upload_filter_matches_loaders Scenario.base
           (data_loader.init "scan.pdf") Scenario.fresh "uploads/scan" "pdf"
           eq_refl eq_refl).
Defined.

(** ** Tokens and passwords *)







(** A protected handler runs only for a verified user.  Whatever the
    header and the token, [token_required] either answers 401 without
    running the handler and without changing anything, or the header
    held a bearer token that decodes to a payload with a non-zero
    [user_id], and then the result is the handler's, run for that user
    id. *)
Theorem token_required_gate
    (H : Services) (f : server.Request -> M server.Response)
    (auth_header : option string) (json : gmap string string) (w : World) :
  (exists error,
     auth.token_required H f auth_header json w
     = (Ok (server.ErrorJson error, 401), w))
  \/ (exists token uid email,
        auth.get_token_from_header auth_header = inr token
        /\ jwt_decode H token = JwtPayload (Some uid) email
        /\ uid <> 0
        /\ auth.token_required H f auth_header json w
           = f (server.mkRequest uid json) w).
Proof.
  unfold auth.token_required, auth.decode_access_token.
  destruct (auth.get_token_from_header auth_header) as [e|token];
    [by left; exists e|].
  destruct (jwt_decode H token) as [[uid|] email| | |message] eqn:Hd;
    try (left; eexists; reflexivity).
  destruct (uid =? 0) eqn:Hz; [left; eexists; reflexivity|].
  right. exists token, uid, email. apply Z.eqb_neq in Hz. done.
Qed.

(** [validate_password] accepts exactly the passwords of at least eight
    characters (code points, not bytes) that contain a character Python
    classes as upper case, one it classes as lower case and one it
    classes as a digit, ASCII or not; the message is empty exactly for
    those; and a password that is too short is told so whatever else is
    wrong with it. *)
Theorem validate_password_spec (U : auth.UnicodeData) (password : list Z) :
  ((auth.validate_password U password).1 = true
   <-> (8 <= length password)%nat
       /\ (exists c, c ∈ password /\ auth.char_isupper U c = true)
       /\ (exists c, c ∈ password /\ auth.char_islower U c = true)
       /\ (exists c, c ∈ password /\ auth.char_isdigit U c = true))
  /\ ((auth.validate_password U password).2 = ""
      <-> (auth.validate_password U password).1 = true)
  /\ ((length password < 8)%nat ->
        auth.validate_password U password
        = (false, "Password must be at least 8 characters long")).
Proof.
  assert (forall p, existsb p password = true
                    <-> exists c, c ∈ password /\ p c = true) as Hex.
  { intros p. rewrite existsb_exists.
    split; intros (c & Hc & Hp); exists c;
      (split; [by apply list_elem_of_In|done]). }
  rewrite <- !Hex. unfold auth.validate_password.
  destruct (length password <? 8)%nat eqn:Hlen.
  - apply Nat.ltb_lt in Hlen. cbn.
    repeat split; try done; try lia; try (intros [? _]; lia).
  - apply Nat.ltb_ge in Hlen.
    destruct (existsb (auth.char_isupper U) password),
             (existsb (auth.char_islower U) password),
             (existsb (auth.char_isdigit U) password); cbn;
      repeat split; try done; try lia; try (intros (_ & ? & ? & ?); done).
Qed.

Lemma validate_password_spec_witness :
  auth.validate_password Scenario.unicode Scenario.accented_password
  = (true, "").
Proof.
  pose proof (proj1 (validate_password_spec Scenario.unicode
                       Scenario.accented_password)) as [_ Hok].
  pose proof (proj1 (proj2 (validate_password_spec Scenario.unicode
                              Scenario.accented_password))) as [_ Hmsg].
  assert ((auth.validate_password Scenario.unicode
             Scenario.accented_password).1 = true) as Hacc.
  { apply Hok. split; [cbn; lia|]. split; [|split].
    - exists 201. split; [apply list_elem_of_here|reflexivity].
    - exists 99. split; [apply list_elem_of_further, list_elem_of_here
                        |reflexivity].
    - exists 1635. split; [|reflexivity]. vm_compute.
      repeat first [apply list_elem_of_here | apply list_elem_of_further]. }
  destruct (auth.validate_password Scenario.unicode
              Scenario.accented_password) as [ok msg].
  cbn [fst snd] in *. f_equal; [exact Hacc | by apply Hmsg].
Defined.

(** ** Indexing at upload, and the chunk listing *)

Lemma pipeline_is_ok (X : Externals) (rag : rag_pipeline.RAGPipeline)
    (w w0 w0' : World) :
  is_ok (rag_pipeline.pipeline X rag w).1
  = is_ok (data_loader.load_document X
             (data_loader.init (rag_pipeline.uploaded_file rag)) w0).1
    && is_ok (embedding.create_embeddings X (embedding.init X) w0').1.
Proof.
  rewrite (load_document_result X _ w0 w).
  destruct (create_embeddings_run X (embedding.init X)) as [e He].
  rewrite (He w0'). unfold rag_pipeline.pipeline. rewrite bind_run.
  destruct (data_loader.load_document X _ w) as [[docs|err] w1];
    cbn [fst snd is_ok andb]; [|done].
  rewrite bind_run, He.
  destruct (new_embeddings X e) as [[]|err]; cbn [fst snd is_ok]; [|done].
  rewrite bind_run.
  destruct (get_retriever_total X
              (retriever.init docs e (rag_pipeline.vector_db_path rag)
                 (Some (rag_pipeline.collection_name_of X
                          (rag_pipeline.uploaded_file rag))))
              (logged [NewEmbeddings e] w1)) as (o & w' & ->).
  reflexivity.
Qed.

(** What the [indexed] flag of a fresh upload records.  The upload
    answers 201 with the new row, and the row is marked indexed exactly
    when the file could be loaded and the embeddings object could be
    constructed - whether or not anything was then embedded or
    persisted. *)
Theorem upload_indexed_flag
    (X : Externals) (user_id : Z)
    (storage_name original_name file_path : string) (file_size : Z)
    (w : World) :
  exists d,
    (server.upload_document X user_id storage_name original_name file_path
       file_size w).1 = Ok (server.DocumentJson d, 201)
    /\ doc_indexed d
       = is_ok (data_loader.load_document X (data_loader.init storage_name) w).1
         && is_ok (embedding.create_embeddings X (embedding.init X) w).1.
Proof.
  unfold server.upload_document. rewrite bind_run.
  destruct (add_document_run X user_id storage_name original_name file_path
              file_size w) as (row & w1 & -> & -> & _).
  rewrite bind_run. unfold try_except. rewrite bind_run.
  pose proof (pipeline_is_ok X
                (rag_pipeline.init storage_name server.vector_store_db)
                w1 w w) as Hp.
  cbn [rag_pipeline.init rag_pipeline.uploaded_file] in Hp.
  destruct (rag_pipeline.pipeline X _ w1) as [[o|e] w2];
    cbn [fst is_ok] in Hp; rewrite <- Hp; eexists; split; reflexivity.
Qed.

Lemma document_chunks_shape (X : Externals) (request : server.Request)
    (document_id : Z) (w : World) :
  exists evs body status,
    server.document_chunks X request document_id w
    = (Ok (body, status), logged evs w)
    /\ Forall (fun ev => is_load ev || is_split ev || is_print ev = true) evs
    /\ (status = 200 \/ status = 404 \/ status = 500).
Proof.
  unfold server.document_chunks.
  rewrite bind_run, query_document_run. cbv beta iota.
  destruct (head _) as [document|].
  2:{ exists [], (server.ErrorJson "Document not found"), 404.
      rewrite logged_nil. auto. }
  rewrite bind_run. unfold try_except. rewrite bind_run.
  destruct (load_document_shape X
              (data_loader.init (doc_filename document)) w)
    as (evs1 & Hw1 & _ & Hloads & _).
  assert (Forall (fun ev => is_load ev || is_split ev || is_print ev = true)
            evs1) as Hevs1.
  { eapply Forall_impl; [exact Hloads|]. by intros ev [l ->]. }
  destruct (data_loader.load_document X _ w) as [[docs|e] w1];
    cbn [fst snd] in Hw1; subst w1.
  - eexists (evs1 ++ [Split 1200 150 docs]), _, 200.
    split; [|split; [|auto]].
    + run. by rewrite <- logged_logged.
    + apply Forall_app. split; [done|]. by apply Forall_singleton.
  - eexists (evs1 ++ [PrintLine _]), _, 500.
    split; [|split; [|auto]].
    + run. by rewrite <- logged_logged.
    + apply Forall_app. split; [done|]. by apply Forall_singleton.
Qed.

(** The chunk listing is read-only and local.  Whatever the request,
    [document_chunks] returns a response (200, 404 or 500) and never
    raises; it leaves the database and the vector store as they were;
    and all it does is read the file, chunk it and print: no embedding
    backend, no collection and no chat model is touched. *)
Theorem document_chunks_is_read_only
    (X : Externals) (request : server.Request) (document_id : Z) (w : World) :
  let listed := server.document_chunks X request document_id w in
  (exists body status,
     listed.1 = Ok (body, status)
     /\ (status = 200 \/ status = 404 \/ status = 500))
  /\ db listed.2 = db w
  /\ chroma listed.2 = chroma w
  /\ Forall (fun ev => is_load ev || is_split ev || is_print ev = true)
       (emitted (server.document_chunks X request document_id) w).
Proof.
  intros listed. subst listed.
  destruct (document_chunks_shape X request document_id w)
    as (evs & body & status & Hrun & Hevs & Hstatus).
  rewrite (emitted_of_world _ w (logged evs w) evs);
    [|by rewrite Hrun|done].
  rewrite Hrun. cbn [fst snd]. eauto 10.
Qed.
